(** * url_shortner: the short-code lifecycle of [main.py]

    A shallow embedding of the FastAPI handlers of [main.py] and of the part
    of the Python runtime they lean on (SHA-256 from [hashlib], the bounded
    [datetime] arithmetic, the two SQLite tables), followed by the properties
    of the specification, each settled against the embedding. *)

From Stdlib Require Import ZArith List String Ascii Bool Lia Sorted.
Import ListNotations.
Local Open Scope string_scope.
Local Open Scope list_scope.
Local Open Scope Z_scope.

(** ** SHA-256 ([hashlib.sha256], FIPS 180-4)

    Words are 32-bit, kept in [Z] with the reduction modulo [2^32] written
    out after every addition.  A Python [bytes] value is a list of byte
    values in [0, 256). *)
Module SHA256.

Definition w32 (x : Z) : Z := x mod 2 ^ 32.

Definition add32 (x y : Z) : Z := w32 (x + y).

Definition rotr (n x : Z) : Z :=
  w32 (Z.lor (Z.shiftr x n) (Z.shiftl x (32 - n))).

Definition shr (n x : Z) : Z := Z.shiftr x n.

Definition not32 (x : Z) : Z := Z.lxor x (Z.ones 32).

Definition Ch (x y z : Z) : Z :=
  Z.lxor (Z.land x y) (Z.land (not32 x) z).

Definition Maj (x y z : Z) : Z :=
  Z.lxor (Z.lxor (Z.land x y) (Z.land x z)) (Z.land y z).

Definition Sigma0 (x : Z) : Z :=
  Z.lxor (Z.lxor (rotr 2 x) (rotr 13 x)) (rotr 22 x).

Definition Sigma1 (x : Z) : Z :=
  Z.lxor (Z.lxor (rotr 6 x) (rotr 11 x)) (rotr 25 x).

Definition sigma0 (x : Z) : Z :=
  Z.lxor (Z.lxor (rotr 7 x) (rotr 18 x)) (shr 3 x).

Definition sigma1 (x : Z) : Z :=
  Z.lxor (Z.lxor (rotr 17 x) (rotr 19 x)) (shr 10 x).

(** The round constants are the first 32 bits of the fractional parts of
    the cube roots of the first 64 primes, the initial hash value those of
    the square roots of the first 8 primes; both are computed that way. *)
Fixpoint has_divisor (ps : list Z) (n : Z) : bool :=
  match ps with
  | [] => false
  | p :: ps' => (n mod p =? 0) || has_divisor ps' n
  end.

Fixpoint primes_from (fuel : nat) (count : nat) (n : Z) (found : list Z)
  : list Z :=
  match fuel, count with
  | O, _ | _, O => rev found
  | S fuel', S count' =>
      if has_divisor found n
      then primes_from fuel' count (n + 1) found
      else primes_from fuel' count' (n + 1) (n :: found)
  end.

Definition first_primes (count : nat) : list Z :=
  primes_from 400 count 2 [].

(** Largest [r] below [2^bits] with [r^3 <= n], one bit at a time. *)
Fixpoint cube_root_bits (bits : nat) (n r : Z) : Z :=
  match bits with
  | O => r
  | S b =>
      let r' := r + 2 ^ Z.of_nat b in
      cube_root_bits b n (if r' * r' * r' <=? n then r' else r)
  end.

Definition frac_cbrt32 (p : Z) : Z := w32 (cube_root_bits 36 (p * 2 ^ 96) 0).

Definition frac_sqrt32 (p : Z) : Z := w32 (Z.sqrt (p * 2 ^ 64)).

Definition K : list Z := Eval vm_compute in map frac_cbrt32 (first_primes 64).

Definition H0 : list Z := Eval vm_compute in map frac_sqrt32 (first_primes 8).

(** Padding: a single [0x80], zeros up to 56 modulo 64, then the bit length
    as a 64-bit big-endian integer. *)
Fixpoint be_bytes (n : nat) (x : Z) : list Z :=
  match n with
  | O => []
  | S n' => (Z.shiftr x (8 * Z.of_nat n')) mod 256 :: be_bytes n' x
  end.

Definition pad (msg : list Z) : list Z :=
  let len := Z.of_nat (List.length msg) in
  msg ++ [128] ++ repeat 0 (Z.to_nat ((55 - len) mod 64))
      ++ be_bytes 8 (8 * len).

Fixpoint be_word (bs : list Z) (acc : Z) : Z :=
  match bs with
  | [] => acc
  | b :: bs' => be_word bs' (acc * 256 + b)
  end.

Fixpoint words_of (n : nat) (bs : list Z) : list Z :=
  match n with
  | O => []
  | S n' => be_word (firstn 4 bs) 0 :: words_of n' (skipn 4 bs)
  end.

(** Message schedule: [w] holds W_0 .. W_(t-1); extend it [n] times. *)
Fixpoint schedule (n : nat) (w : list Z) : list Z :=
  match n with
  | O => w
  | S n' =>
      let t := List.length w in
      let at_ k := nth (t - k) w 0 in
      schedule n'
        (w ++ [add32 (add32 (sigma1 (at_ 2%nat)) (at_ 7%nat))
                     (add32 (sigma0 (at_ 15%nat)) (at_ 16%nat))])
  end.

Definition state : Type := Z * Z * Z * Z * Z * Z * Z * Z.

Definition round (s : state) (kw : Z * Z) : state :=
  let '(a, b, c, d, e, f, g, h) := s in
  let '(k, w) := kw in
  let t1 := add32 (add32 (add32 h (Sigma1 e)) (add32 (Ch e f g) k)) w in
  let t2 := add32 (Sigma0 a) (Maj a b c) in
  (add32 t1 t2, a, b, c, add32 d t1, e, f, g).

Definition compress (s : state) (block : list Z) : state :=
  let w := schedule 48 (words_of 16 block) in
  let '(a, b, c, d, e, f, g, h) := fold_left round (combine K w) s in
  let '(a0, b0, c0, d0, e0, f0, g0, h0) := s in
  (add32 a0 a, add32 b0 b, add32 c0 c, add32 d0 d,
   add32 e0 e, add32 f0 f, add32 g0 g, add32 h0 h).

Fixpoint blocks (n : nat) (s : state) (bs : list Z) : state :=
  match n with
  | O => s
  | S n' => blocks n' (compress s (firstn 64 bs)) (skipn 64 bs)
  end.

Definition init : state :=
  (nth 0 H0 0, nth 1 H0 0, nth 2 H0 0, nth 3 H0 0,
   nth 4 H0 0, nth 5 H0 0, nth 6 H0 0, nth 7 H0 0).

Definition sha256 (msg : list Z) : state :=
  let p := pad msg in
  blocks (List.length p / 64) init p.

(** [hexdigest]: eight lowercase hexadecimal digits per word. *)
Definition hexdigit (d : Z) : ascii :=
  nth (Z.to_nat d) (list_ascii_of_string "0123456789abcdef") "0"%char.

Definition hex8 (w : Z) : string :=
  String (hexdigit (Z.shiftr w 28 mod 16))
  (String (hexdigit (Z.shiftr w 24 mod 16))
  (String (hexdigit (Z.shiftr w 20 mod 16))
  (String (hexdigit (Z.shiftr w 16 mod 16))
  (String (hexdigit (Z.shiftr w 12 mod 16))
  (String (hexdigit (Z.shiftr w 8 mod 16))
  (String (hexdigit (Z.shiftr w 4 mod 16))
  (String (hexdigit (w mod 16)) EmptyString))))))).

Definition hexdigest (s : state) : string :=
  let '(a, b, c, d, e, f, g, h) := s in
  (hex8 a ++ hex8 b ++ hex8 c ++ hex8 d
   ++ hex8 e ++ hex8 f ++ hex8 g ++ hex8 h)%string.

End SHA256.

(** ** Python strings

    A Python [str] is represented by its UTF-8 encoding, so [str.encode()]
    only reads the bytes off. *)
Definition encode (s : string) : list Z :=
  map (fun c => Z.of_nat (nat_of_ascii c)) (list_ascii_of_string s).

(** [s[:n]] *)
Definition prefix (n : nat) (s : string) : string := substring 0 n s.

(** [if s:] on an [Optional[str]]: [None] and the empty string are falsy. *)
Definition truthy (s : option string) : bool :=
  match s with
  | None => false
  | Some s' => negb (s' =? "")%string
  end.

(** ** Code generator (main.py, l. 60-62) *)
Definition generate_short_url (original_url : string) : string :=
  prefix 8 (SHA256.hexdigest (SHA256.sha256 (encode original_url))).

(** ** Exceptions and [datetime]

    An exception no handler catches leaves the endpoint as a 500 response.
    A naive [datetime] is the number of microseconds since
    0001-01-01T00:00:00; [datetime.max] is 9999-12-31T23:59:59.999999.
    A [timedelta] is a number of microseconds whose whole days stay within
    999999999 in absolute value.  Out-of-range results raise
    [OverflowError], and [timedelta(hours=None)] raises [TypeError]. *)
Inductive exn : Type :=
| TypeError
| OverflowError
| AttributeError.

Definition datetime : Type := Z.
Definition timedelta : Type := Z.

Definition us_per_hour : Z := 3600 * 1000000.
Definition us_per_day : Z := 24 * us_per_hour.
Definition max_delta_days : Z := 999999999.
Definition max_ordinal : Z := 3652059.

Definition timedelta_hours (hours : option Z) : exn + timedelta :=
  match hours with
  | None => inl TypeError
  | Some h =>
      let us := h * us_per_hour in
      if Z.abs (us / us_per_day) <=? max_delta_days
      then inr us else inl OverflowError
  end.

Definition datetime_add (t : datetime) (d : timedelta) : exn + datetime :=
  let r := t + d in
  if (0 <=? r) && (r <? max_ordinal * us_per_day)
  then inr r else inl OverflowError.

(** ** The two tables (main.py, l. 21-41)

    Rows are kept in insertion order.  The AUTOINCREMENT [id] of a row is
    its position and no handler reads it, so it is left out.  SQLite stores
    a [datetime] as its ISO text and [datetime.fromisoformat] reads the
    same value back: a column holds the [datetime] itself.  Foreign keys
    are not enforced on a connection that does not switch them on. *)
Record URLRow : Type := mkURLRow {
  original_url : string;
  short_url : string;
  created_at : datetime;
  expires_at : datetime;
  password : option string
}.

Record AccessLog : Type := mkAccessLog {
  log_short_url : string;
  accessed_at : datetime;
  ip_address : string
}.

Record DB : Type := mkDB {
  URLs : list URLRow;
  AccessLogs : list AccessLog
}.

Definition init_db : DB := mkDB [] [].

(** [SELECT * FROM URLs WHERE short_url = ?] followed by [fetchone()] *)
Definition select_url (db : DB) (code : string) : option URLRow :=
  find (fun r => (short_url r =? code)%string) (URLs db).

(** [INSERT INTO URLs ...]: [None] is [sqlite3.IntegrityError], raised by
    the UNIQUE constraint on [short_url]. *)
Definition insert_url (db : DB) (row : URLRow) : option DB :=
  if existsb (fun r => (short_url r =? short_url row)%string) (URLs db)
  then None
  else Some (mkDB (URLs db ++ [row]) (AccessLogs db)).

(** [INSERT INTO AccessLogs ...] and [commit()] *)
Definition insert_log (db : DB) (entry : AccessLog) : DB :=
  mkDB (URLs db) (AccessLogs db ++ [entry]).

(** [SELECT accessed_at, ip_address FROM AccessLogs WHERE short_url = ?]
    followed by [fetchall()]: the scan goes by rowid, which is insertion
    order in a table no row is ever deleted from. *)
Definition select_logs (db : DB) (code : string) : list AccessLog :=
  filter (fun l => (log_short_url l =? code)%string) (AccessLogs db).

(** ** Request and response models (main.py, l. 46-57) *)
Record URLRequest : Type := mkURLRequest {
  req_original_url : string;
  req_expiry_hours : option Z;
  req_password : option string
}.

(** Pydantic fills in the defaults of the fields the body leaves out:
    [expiry_hours: Optional[int] = 24], [password: Optional[str] = None].
    A field is [None] when the key is missing and [Some v] when the body
    gives it, [v] being [None] for a JSON null. *)
Definition URLRequest_validate (url : string)
    (expiry_hours : option (option Z)) (pw : option (option string))
  : URLRequest :=
  mkURLRequest url
    (match expiry_hours with None => Some 24 | Some v => v end)
    (match pw with None => None | Some v => v end).

Record analytics_data : Type := mkAnalytics {
  ad_short_url : string;
  ad_original_url : string;
  ad_created_at : datetime;
  ad_expires_at : datetime;
  access_count : Z;
  access_logs : list (datetime * string)
}.

(** The HTML documents the handlers render, each with the values its
    f-string interpolates. *)
Inductive page : Type :=
| PasswordPrompt (action : string)
| Redirecting (target : string)
| AnalyticsPasswordPrompt (action : string)
| Analytics (data : analytics_data).

Inductive response : Type :=
| JSONResponse (short : string)
| RedirectResponse (url : string)
| HTMLResponse (content : page)
| HTTPException (status_code : Z) (detail : string)
| Uncaught (e : exn).

Definition public_url (host code : string) : string :=
  ("http://" ++ host ++ ":8000/" ++ code)%string.

Definition build_analytics (db : DB) (url_entry : URLRow)
    (host code : string) : analytics_data :=
  let logs := select_logs db code in
  mkAnalytics (public_url host code)
    (original_url url_entry) (created_at url_entry) (expires_at url_entry)
    (Z.of_nat (List.length logs))
    (map (fun l => (accessed_at l, ip_address l)) logs).

(** ** Endpoints

    [werkzeug.security] is a library of its own: its two functions are
    parameters.  [generate_password_hash] draws a fresh salt, passed here
    as an argument.  Every reading of the clock is an argument as well,
    named after the place that reads it. *)
Section Endpoints.

Variable generate_password_hash : string -> string -> string.
Variable check_password_hash : string -> string -> bool.

(** [check_password_hash(url_entry["password"], password)]: the column is
    NULL for a link without password, and werkzeug starts by calling a
    [str] method on its first argument, which [None] does not have. *)
Definition check_stored_password (stored : option string) (pw : string)
  : exn + bool :=
  match stored with
  | None => inl AttributeError
  | Some pwhash => inr (check_password_hash pwhash pw)
  end.

(** l. 71-93 *)
Definition shorten_url (db : DB) (request : URLRequest) (host : string)
    (now_expiry now_created : datetime) (salt : string) : DB * response :=
  let url := req_original_url request in
  let code := generate_short_url url in
  match timedelta_hours (req_expiry_hours request) with
  | inl e => (db, Uncaught e)
  | inr delta =>
      match datetime_add now_expiry delta with
      | inl e => (db, Uncaught e)
      | inr expires =>
          let hashed_password :=
            match req_password request with
            | Some pw =>
                if truthy (Some pw)
                then Some (generate_password_hash pw salt) else None
            | None => None
            end in
          let row := mkURLRow url code now_created expires hashed_password in
          (match insert_url db row with
           | Some db' => db'
           | None => db
           end,
           JSONResponse (public_url host code))
      end
  end.

(** l. 95-136 *)
Definition redirect_to_url (db : DB) (code host : string)
    (now_check now_log : datetime) : DB * response :=
  match select_url db code with
  | None => (db, HTTPException 404 "Short URL not found.")
  | Some url_entry =>
      if expires_at url_entry <? now_check
      then (db, HTTPException 410 "Short URL has expired.")
      else if truthy (password url_entry)
      then (db, HTMLResponse
                  (PasswordPrompt ("/" ++ code ++ "/validate")%string))
      else (insert_log db (mkAccessLog code now_log host),
            RedirectResponse (original_url url_entry))
  end.

(** l. 138-179 *)
Definition validate_password (db : DB) (code pw : string) (now : datetime)
  : DB * response :=
  match select_url db code with
  | None => (db, HTTPException 404 "Short URL not found.")
  | Some url_entry =>
      match check_stored_password (password url_entry) pw with
      | inl e => (db, Uncaught e)
      | inr false => (db, HTTPException 403 "Password is incorrect.")
      | inr true =>
          (insert_log db (mkAccessLog code now "Validated Access"),
           HTMLResponse (Redirecting (original_url url_entry)))
      end
  end.

(** l. 181-229 *)
Definition validate_analytics_password (db : DB) (code pw host : string)
  : DB * response :=
  match select_url db code with
  | None => (db, HTTPException 404 "Short URL not found.")
  | Some url_entry =>
      match check_stored_password (password url_entry) pw with
      | inl e => (db, Uncaught e)
      | inr false => (db, HTTPException 403 "Password is incorrect.")
      | inr true =>
          (db, HTMLResponse (Analytics (build_analytics db url_entry host code)))
      end
  end.

(** l. 231-296 *)
Definition get_analytics (db : DB) (code : string)
    (x_password : option string) (host : string) : DB * response :=
  match select_url db code with
  | None => (db, HTTPException 404 "Short URL not found.")
  | Some url_entry =>
      let report :=
        (db, HTMLResponse (Analytics (build_analytics db url_entry host code)))
      in
      if truthy (password url_entry)
      then
        match x_password with
        | Some supplied =>
            if truthy (Some supplied)
            then
              match check_stored_password (password url_entry) supplied with
              | inl e => (db, Uncaught e)
              | inr false => (db, HTTPException 403 "Password is incorrect.")
              | inr true => report
              end
            else (db, HTMLResponse
                        (AnalyticsPasswordPrompt
                           ("/analytics/" ++ code ++ "/validate")%string))
        | None => (db, HTMLResponse
                         (AnalyticsPasswordPrompt
                            ("/analytics/" ++ code ++ "/validate")%string))
        end
      else report
  end.

End Endpoints.

(** The sentinel the direct-validate path writes in place of an address. *)
Definition sentinel_ip : string := "Validated Access".

(** A link is protected when the handlers' test [if url_entry["password"]]
    passes. *)
Definition is_protected (row : URLRow) : bool := truthy (password row).

(** ** The service as a transition system *)
Inductive call : Type :=
| Shorten (request : URLRequest) (host : string)
    (now_expiry now_created : datetime) (salt : string)
| Resolve (code host : string) (now_check now_log : datetime)
| ValidateAndResolve (code pw : string) (now : datetime)
| ValidateAnalytics (code pw host : string)
| GetAnalytics (code : string) (x_password : option string) (host : string).

Section Service.

Variable generate_password_hash : string -> string -> string.
Variable check_password_hash : string -> string -> bool.

Definition handle (db : DB) (c : call) : DB * response :=
  match c with
  | Shorten request host now_expiry now_created salt =>
      shorten_url generate_password_hash db request host
        now_expiry now_created salt
  | Resolve code host now_check now_log =>
      redirect_to_url db code host now_check now_log
  | ValidateAndResolve code pw now =>
      validate_password check_password_hash db code pw now
  | ValidateAnalytics code pw host =>
      validate_analytics_password check_password_hash db code pw host
  | GetAnalytics code x_password host =>
      get_analytics check_password_hash db code x_password host
  end.

Definition run (db : DB) (calls : list call) : DB :=
  fold_left (fun d c => fst (handle d c)) calls db.

End Service.

(** ** A concrete deployment

    The unsalted scheme ["plain"] stands in for werkzeug where the
    endpoints are run on concrete requests. *)
Module Plain.

Definition generate_password_hash (pw salt : string) : string :=
  ("plain$$" ++ pw)%string.

Definition check_password_hash (pwhash pw : string) : bool :=
  (pwhash =? "plain$$" ++ pw)%string.

(** 2024-01-01T12:00:00 *)
Definition noon : datetime := 738885 * us_per_day + 12 * us_per_hour.

Definition example_url : string := "http://example.com/".
Definition example_code : string := "2a1b4024".

(** The rows [POST /shorten] stores for [{"original_url": example_url}]
    and for the same body with ["password": "secret"], at noon. *)
Definition row_open : URLRow :=
  mkURLRow example_url example_code noon (noon + us_per_day) None.

Definition row_secret : URLRow :=
  mkURLRow example_url example_code noon (noon + us_per_day)
    (Some "plain$$secret").

Definition db_open : DB := mkDB [row_open] [].

Definition db_secret : DB := mkDB [row_secret] [].

End Plain.

(** ** Predicates the statements use *)

Definition is_hex (c : ascii) : bool :=
  existsb (Ascii.eqb c) (list_ascii_of_string "0123456789abcdef").

(** The expiry arithmetic of [shorten_url] goes through: [expiry_hours] is
    an integer and neither the [timedelta] nor the sum overflows. *)
Definition valid_expiry (now : datetime) (hours : option Z) : bool :=
  match timedelta_hours hours with
  | inl _ => false
  | inr delta =>
      match datetime_add now delta with
      | inl _ => false
      | inr _ => true
      end
  end.

(** A Shorten call with a positive [expiry_hours], whose second reading of
    the clock is less than that many hours after the first. *)
Definition positive_expiry (c : call) : Prop :=
  match c with
  | Shorten request _ now_expiry now_created _ =>
      exists h, req_expiry_hours request = Some h /\ 0 < h /\
                now_created < now_expiry + h * us_per_hour
  | _ => True
  end.

Definition expires_after_creation (row : URLRow) : Prop :=
  expires_at row > created_at row.

Definition chronological (logs : list datetime) : Prop :=
  StronglySorted Z.le logs.

(** The store with every link's expiry moved to [t], and a response with
    the expiry it prints moved to [t]: what a handler that never reads
    [expires_at] cannot tell apart from the original. *)
Definition with_expiry (t : datetime) (row : URLRow) : URLRow :=
  mkURLRow (original_url row) (short_url row) (created_at row) t
    (password row).

Definition reschedule (t : datetime) (db : DB) : DB :=
  mkDB (map (with_expiry t) (URLs db)) (AccessLogs db).

Definition printed_expiry (t : datetime) (r : response) : response :=
  match r with
  | HTMLResponse (Analytics d) =>
      HTMLResponse
        (Analytics (mkAnalytics (ad_short_url d) (ad_original_url d)
                      (ad_created_at d) t (access_count d) (access_logs d)))
  | _ => r
  end.

(** The password form of [get_analytics]. *)
Definition analytics_prompt (code : string) : response :=
  HTMLResponse
    (AnalyticsPasswordPrompt ("/analytics/" ++ code ++ "/validate")%string).

(** Stored hashes are never the empty string. *)
Definition hash_set_or_absent (row : URLRow) : Prop :=
  password row = None \/ is_protected row = true.

(** ** Predicates of the store-wide properties *)

(** A response that reports a failure: an [HTTPException] or an exception
    nothing caught. *)
Definition is_failure (r : response) : bool :=
  match r with
  | HTTPException _ _ | Uncaught _ => true
  | _ => false
  end.

(** The clock readings a sequence of calls may write into the access log,
    in the order of the calls. *)
Definition log_time (c : call) : list datetime :=
  match c with
  | Resolve _ _ _ now_log => [now_log]
  | ValidateAndResolve _ _ now => [now]
  | _ => []
  end.

Definition log_times (calls : list call) : list datetime :=
  flat_map log_time calls.

(** Every access log entry names a short code that has a link. *)
Definition log_references_link (db : DB) (entry : AccessLog) : Prop :=
  exists row, select_url db (log_short_url entry) = Some row.

(** The first 32 bits of a digest. *)
Definition first_word (s : SHA256.state) : Z :=
  let '(a, _, _, _, _, _, _, _) := s in a.

Definition words (s : SHA256.state) : list Z :=
  let '(a, b, c, d, e, f, g, h) := s in [a; b; c; d; e; f; g; h].

(** What [shorten_url] puts in the [password] column (l. 78). *)
Definition hashed_password
    (generate_password_hash : string -> string -> string)
    (pw : option string) (salt : string) : option string :=
  match pw with
  | Some p =>
      if truthy (Some p) then Some (generate_password_hash p salt) else None
  | None => None
  end.

(** A [datetime] the clock can show. *)
Definition in_datetime_range (t : Z) : Prop :=
  0 <= t < max_ordinal * us_per_day.

(** A short code as the generator makes them: 8 lowercase hexadecimal
    digits. *)
Definition well_formed_code (code : string) : Prop :=
  String.length code = 8%nat /\
  Forall (fun c => is_hex c = true) (list_ascii_of_string code).

Definition not_found : response :=
  HTTPException 404 "Short URL not found.".

(** The value of a hexadecimal digit: its position among the digits. *)
Fixpoint index_of (c : ascii) (l : list ascii) : Z :=
  match l with
  | [] => 0
  | x :: l' => if Ascii.eqb x c then 0 else 1 + index_of c l'
  end.

Definition hex_value (c : ascii) : Z :=
  index_of c (list_ascii_of_string "0123456789abcdef").

Definition is_word32 (w : Z) : Prop := 0 <= w < 2 ^ 32.

(** A response that sends the visitor to a stored URL: the HTTP redirect
    of [redirect_to_url] or the redirecting page of [validate_password]. *)
Definition is_redirect (r : response) : bool :=
  match r with
  | RedirectResponse _ | HTMLResponse (Redirecting _) => true
  | _ => false
  end.

(** The short code and the password a call carries, and the stored URL a
    response hands out: in a redirect, in the redirecting page or in an
    analytics report. *)
Definition call_code (c : call) : option string :=
  match c with
  | Shorten _ _ _ _ _ => None
  | Resolve code _ _ _ | ValidateAndResolve code _ _
  | ValidateAnalytics code _ _ | GetAnalytics code _ _ => Some code
  end.

Definition supplied_password (c : call) : option string :=
  match c with
  | ValidateAndResolve _ pw _ | ValidateAnalytics _ pw _ => Some pw
  | GetAnalytics _ x_password _ => x_password
  | _ => None
  end.

Definition disclosed_url (r : response) : option string :=
  match r with
  | RedirectResponse url => Some url
  | HTMLResponse (Redirecting target) => Some target
  | HTMLResponse (Analytics data) => Some (ad_original_url data)
  | _ => None
  end.

(** The responses a sequence of calls gets, each call running on the store
    the calls before it left. *)
Fixpoint responses
    (generate_password_hash : string -> string -> string)
    (check_password_hash : string -> string -> bool)
    (db : DB) (calls : list call) : list response :=
  match calls with
  | [] => []
  | c :: calls' =>
      let out := handle generate_password_hash check_password_hash db c in
      snd out
      :: responses generate_password_hash check_password_hash (fst out) calls'
  end.

(** * Properties *)

(** ** Test vectors *)
Example round_constants :
  nth 0 SHA256.K 0 = 0x428a2f98 /\ nth 63 SHA256.K 0 = 0xc67178f2 /\
  List.length SHA256.K = 64%nat /\
  nth 0 SHA256.H0 0 = 0x6a09e667 /\ nth 7 SHA256.H0 0 = 0x5be0cd19.
Proof. repeat split. Qed.

Example sha256_abc :
  SHA256.hexdigest (SHA256.sha256 (encode "abc")) =
  "ba7816bf8f01cfea414140de5dae2223b00361a396177a9cb410ff61f20015ad".
Proof. vm_compute. reflexivity. Qed.

Example sha256_empty :
  SHA256.hexdigest (SHA256.sha256 (encode "")) =
  "e3b0c44298fc1c149afbf4c8996fb92427ae41e4649b934ca495991b7852b855".
Proof. vm_compute. reflexivity. Qed.

(** 56 bytes of input: the padding spills into a second block. *)
Example sha256_two_blocks :
  SHA256.hexdigest (SHA256.sha256 (repeat 97 56)) =
  "b35439a4ac6f0948b6d6f9e3c6af0f5f590ce20f1bde7090ef7970686ec6738a".
Proof. vm_compute. reflexivity. Qed.

Example generate_short_url_example :
  generate_short_url "http://example.com/" = "2a1b4024".
Proof. vm_compute. reflexivity. Qed.

Example db_open_created :
  shorten_url Plain.generate_password_hash init_db
    (URLRequest_validate Plain.example_url None None)
    "10.0.0.1" Plain.noon Plain.noon "c2FsdA" =
  (Plain.db_open, JSONResponse "http://10.0.0.1:8000/2a1b4024").
Proof. vm_compute. reflexivity. Qed.

Example db_secret_created :
  shorten_url Plain.generate_password_hash init_db
    (URLRequest_validate Plain.example_url None (Some (Some "secret")))
    "10.0.0.1" Plain.noon Plain.noon "c2FsdA" =
  (Plain.db_secret, JSONResponse "http://10.0.0.1:8000/2a1b4024").
Proof. vm_compute. reflexivity. Qed.

(** ** Code generator *)

Lemma hexdigit_is_hex (d : Z) : is_hex (SHA256.hexdigit d) = true.
Proof.
  unfold SHA256.hexdigit.
  generalize (Z.to_nat d) as n; intro n.
  do 16 (destruct n as [|n]; [reflexivity|]).
  destruct n; reflexivity.
Qed.

Lemma hex8_length (w : Z) : String.length (SHA256.hex8 w) = 8%nat.
Proof. reflexivity. Qed.

Lemma hex8_is_hex (w : Z) :
  Forall (fun c => is_hex c = true) (list_ascii_of_string (SHA256.hex8 w)).
Proof.
  unfold SHA256.hex8; cbn [list_ascii_of_string].
  repeat (constructor; [apply hexdigit_is_hex|]).
  constructor.
Qed.

Lemma prefix_hex8 (w : Z) (rest : string) :
  prefix 8 (SHA256.hex8 w ++ rest)%string = SHA256.hex8 w.
Proof.
  unfold prefix, SHA256.hex8.
  cbn [append substring]. destruct rest; reflexivity.
Qed.

Lemma append_length (s t : string) :
  String.length (s ++ t)%string = (String.length s + String.length t)%nat.
Proof. induction s as [|c s IH]; cbn; [reflexivity | now rewrite IH]. Qed.

Lemma digest_shape (u : string) :
  let digest := SHA256.hexdigest (SHA256.sha256 (encode u)) in
  String.length digest = 64%nat /\
  (exists rest, digest = (prefix 8 digest ++ rest)%string) /\
  String.length (prefix 8 digest) = 8%nat /\
  Forall (fun c => is_hex c = true) (list_ascii_of_string (prefix 8 digest)).
Proof.
  destruct (SHA256.sha256 (encode u)) as [[[[[[[a b] c] d] e] f] g] h].
  cbv beta iota zeta delta [SHA256.hexdigest].
  rewrite prefix_hex8.
  split; [|split; [|split]].
  - rewrite !append_length, !hex8_length. reflexivity.
  - eexists. reflexivity.
  - apply hex8_length.
  - apply hex8_is_hex.
Qed.

Lemma generate_short_url_first_word (u : string) :
  generate_short_url u =
  SHA256.hex8 (first_word (SHA256.sha256 (encode u))).
Proof.
  unfold generate_short_url.
  destruct (SHA256.sha256 (encode u)) as [[[[[[[a b] c] d] e] f] g] h].
  cbv beta iota zeta delta [SHA256.hexdigest first_word].
  apply prefix_hex8.
Qed.

(** C9: [generate_short_url] is a function of the URL alone, and its value
    is the first 8 characters of the 64-character hexadecimal SHA-256
    digest of the URL's bytes: 8 characters, all of them lowercase
    hexadecimal digits, the digits of the first digest word.  The digest
    is SHA-256: it gives the published digests of the FIPS 180 test
    messages (["abc"], the empty message, the 448-bit message that fills
    a second block), the codes of two example URLs are the ones
    [hashlib] gives, and they differ. *)
Theorem generate_short_url_is_digest_prefix (u : string) :
  let digest := SHA256.hexdigest (SHA256.sha256 (encode u)) in
  (String.length digest = 64%nat /\
   (exists rest, digest = (generate_short_url u ++ rest)%string) /\
   String.length (generate_short_url u) = 8%nat /\
   Forall (fun c => is_hex c = true)
          (list_ascii_of_string (generate_short_url u)) /\
   generate_short_url u =
     SHA256.hex8 (first_word (SHA256.sha256 (encode u))) /\
   (forall v, v = u -> generate_short_url v = generate_short_url u)) /\
  (SHA256.hexdigest (SHA256.sha256 (encode "abc")) =
     "ba7816bf8f01cfea414140de5dae2223b00361a396177a9cb410ff61f20015ad" /\
   SHA256.hexdigest (SHA256.sha256 (encode "")) =
     "e3b0c44298fc1c149afbf4c8996fb92427ae41e4649b934ca495991b7852b855" /\
   SHA256.hexdigest
     (SHA256.sha256
        (encode "abcdbcdecdefdefgefghfghighijhijkijkljklmklmnlmnomnopnopq")) =
     "248d6a61d20638b8e5c026930c3e6039a33ce45964ff2167f6ecedd419db06c1") /\
  (generate_short_url "http://example.com/" = "2a1b4024" /\
   generate_short_url "http://example.com" = "f0e6a6a9" /\
   generate_short_url "http://example.com/" <>
   generate_short_url "http://example.com").
Proof.
  destruct (digest_shape u) as (H64 & Hpre & H8 & Hhex).
  cbv zeta. fold (generate_short_url u) in Hpre, H8, Hhex.
  split; [|split].
  - repeat (split; [assumption|]).
    split; [apply generate_short_url_first_word|].
    intros v ->. reflexivity.
  - repeat split; vm_compute; reflexivity.
  - split; [vm_compute; reflexivity|].
    split; [vm_compute; reflexivity|].
    vm_compute. discriminate.
Qed.

(** ** Lookups and inserts *)

Lemma select_url_insert_log (db : DB) (entry : AccessLog) (code : string) :
  select_url (insert_log db entry) code = select_url db code.
Proof. reflexivity. Qed.

Lemma select_url_short_url (db : DB) (code : string) (row : URLRow) :
  select_url db code = Some row -> short_url row = code.
Proof.
  unfold select_url. intros H.
  apply find_some in H as [_ H]. now apply String.eqb_eq in H.
Qed.

Lemma select_url_In (db : DB) (code : string) (row : URLRow) :
  select_url db code = Some row -> In row (URLs db).
Proof. unfold select_url. intros H. now apply find_some in H. Qed.

Lemma insert_url_duplicate (db : DB) (row found : URLRow) :
  select_url db (short_url row) = Some found -> insert_url db row = None.
Proof.
  intros H. unfold insert_url.
  replace (existsb _ (URLs db)) with true; [reflexivity|].
  symmetry. apply existsb_exists. exists found. split.
  - eapply select_url_In; eassumption.
  - apply String.eqb_eq. eapply select_url_short_url; eassumption.
Qed.

Lemma insert_url_fresh (db db' : DB) (row : URLRow) :
  insert_url db row = Some db' ->
  select_url db' (short_url row) = Some row /\
  db' = mkDB (URLs db ++ [row]) (AccessLogs db).
Proof.
  unfold insert_url.
  destruct (existsb _ (URLs db)) eqn:E; [discriminate|].
  intros [= <-]. split; [|reflexivity].
  unfold select_url; cbn [URLs].
  induction (URLs db) as [|r rs IH]; cbn in *.
  - now rewrite String.eqb_refl.
  - apply orb_false_iff in E as [E1 E2]. rewrite E1. now apply IH.
Qed.

(** ** Analytics retrieval *)

Lemma get_analytics_store
    (check_password_hash : string -> string -> bool) (db : DB)
    (code : string) (x_password : option string) (host : string) :
  fst (get_analytics check_password_hash db code x_password host) = db.
Proof.
  unfold get_analytics.
  destruct (select_url db code) as [row|]; [|reflexivity].
  destruct (truthy (password row)); [|reflexivity].
  destruct x_password as [p|]; [|reflexivity].
  destruct (truthy (Some p)); [|reflexivity].
  destruct (check_stored_password _ _ _) as [e|[|]]; reflexivity.
Qed.

(** C8: [GET /analytics/{short_code}] leaves the store as it found it,
    whatever the short code, the header, the caller and the store: both
    tables are unchanged and no access log entry is appended. *)
Theorem get_analytics_read_only
    (check_password_hash : string -> string -> bool) (db : DB)
    (code : string) (x_password : option string) (host : string) :
  let db' := fst (get_analytics check_password_hash db code x_password host) in
  db' = db /\ URLs db' = URLs db /\ AccessLogs db' = AccessLogs db.
Proof.
  cbv zeta. rewrite get_analytics_store. auto.
Qed.

(** ** Password validation *)

Section Validation.

Variable check_password_hash : string -> string -> bool.

Lemma validate_password_correct (db : DB) (code pw : string) (now : datetime)
    (row : URLRow) (pwhash : string) :
  select_url db code = Some row ->
  password row = Some pwhash ->
  check_password_hash pwhash pw = true ->
  validate_password check_password_hash db code pw now =
    (insert_log db (mkAccessLog code now sentinel_ip),
     HTMLResponse (Redirecting (original_url row))).
Proof.
  intros Hsel Hpw Hok. unfold validate_password, check_stored_password.
  now rewrite Hsel, Hpw, Hok.
Qed.

Lemma validate_password_wrong (db : DB) (code pw : string) (now : datetime)
    (row : URLRow) (pwhash : string) :
  select_url db code = Some row ->
  password row = Some pwhash ->
  check_password_hash pwhash pw = false ->
  validate_password check_password_hash db code pw now =
    (db, HTTPException 403 "Password is incorrect.").
Proof.
  intros Hsel Hpw Hok. unfold validate_password, check_stored_password.
  now rewrite Hsel, Hpw, Hok.
Qed.

Lemma validate_password_absent (db : DB) (code pw : string) (now : datetime) :
  select_url db code = None ->
  validate_password check_password_hash db code pw now =
    (db, HTTPException 404 "Short URL not found.").
Proof. intros Hsel. unfold validate_password. now rewrite Hsel. Qed.

Lemma validate_password_no_password (db : DB) (code pw : string)
    (now : datetime) (row : URLRow) :
  select_url db code = Some row ->
  password row = None ->
  validate_password check_password_hash db code pw now =
    (db, Uncaught AttributeError).
Proof.
  intros Hsel Hpw. unfold validate_password, check_stored_password.
  now rewrite Hsel, Hpw.
Qed.

Lemma validate_analytics_password_correct (db : DB) (code pw host : string)
    (row : URLRow) (pwhash : string) :
  select_url db code = Some row ->
  password row = Some pwhash ->
  check_password_hash pwhash pw = true ->
  validate_analytics_password check_password_hash db code pw host =
    (db, HTMLResponse (Analytics (build_analytics db row host code))).
Proof.
  intros Hsel Hpw Hok.
  unfold validate_analytics_password, check_stored_password.
  now rewrite Hsel, Hpw, Hok.
Qed.

Lemma get_analytics_unprotected (db : DB) (code : string)
    (x_password : option string) (host : string) (row : URLRow) :
  select_url db code = Some row ->
  is_protected row = false ->
  get_analytics check_password_hash db code x_password host =
    (db, HTMLResponse (Analytics (build_analytics db row host code))).
Proof.
  unfold is_protected. intros Hsel Hpw. unfold get_analytics.
  now rewrite Hsel, Hpw.
Qed.

Lemma get_analytics_correct (db : DB) (code supplied host : string)
    (row : URLRow) (pwhash : string) :
  select_url db code = Some row ->
  password row = Some pwhash ->
  supplied <> "" ->
  check_password_hash pwhash supplied = true ->
  get_analytics check_password_hash db code (Some supplied) host =
    (db, HTMLResponse (Analytics (build_analytics db row host code))).
Proof.
  intros Hsel Hpw Hne Hok. unfold get_analytics, check_stored_password.
  rewrite Hsel, Hpw, Hok.
  apply String.eqb_neq in Hne. cbn [truthy]. rewrite Hne. cbn [negb].
  now destruct (negb (pwhash =? "")%string).
Qed.

End Validation.

(** C1, as the code has it: with the correct password on a protected
    link, [POST /{short_code}/validate] answers with the page that
    redirects to [original_url] and appends exactly one access log entry,
    whose address is the sentinel; [POST /analytics/{short_code}/validate]
    answers with the analytics report and appends nothing. *)
Theorem validate_correct_password_logging
    (check_password_hash : string -> string -> bool) (db : DB)
    (code pw host : string) (now : datetime) (row : URLRow)
    (pwhash : string) :
  select_url db code = Some row ->
  password row = Some pwhash ->
  check_password_hash pwhash pw = true ->
  let direct := validate_password check_password_hash db code pw now in
  let form := validate_analytics_password check_password_hash db code pw host in
  snd direct = HTMLResponse (Redirecting (original_url row)) /\
  URLs (fst direct) = URLs db /\
  AccessLogs (fst direct) =
    AccessLogs db ++ [mkAccessLog code now sentinel_ip] /\
  snd form = HTMLResponse (Analytics (build_analytics db row host code)) /\
  fst form = db.
Proof.
  intros Hsel Hpw Hok. cbv zeta.
  rewrite (validate_password_correct _ _ _ _ _ _ _ Hsel Hpw Hok).
  rewrite (validate_analytics_password_correct _ _ _ _ _ _ _ Hsel Hpw Hok).
  repeat split.
Qed.

Lemma validate_correct_password_logging_witness :
  select_url Plain.db_secret Plain.example_code = Some Plain.row_secret /\
  snd (validate_password Plain.check_password_hash Plain.db_secret
         Plain.example_code "secret" (Plain.noon + 1)) =
    HTMLResponse (Redirecting Plain.example_url) /\
  AccessLogs (fst (validate_password Plain.check_password_hash Plain.db_secret
                     Plain.example_code "secret" (Plain.noon + 1))) =
    [mkAccessLog Plain.example_code (Plain.noon + 1) "Validated Access"].
Proof.
  assert (Hsel : select_url Plain.db_secret Plain.example_code
                 = Some Plain.row_secret) by (vm_compute; reflexivity).
  destruct (validate_correct_password_logging Plain.check_password_hash
              Plain.db_secret Plain.example_code "secret" "10.0.0.2"
              (Plain.noon + 1) Plain.row_secret "plain$$secret"
              Hsel eq_refl eq_refl) as (Hresp & _ & Hlogs & _).
  split; [exact Hsel|]. split; [exact Hresp|]. exact Hlogs.
Defined.

(** C1 fails on both paths: on the protected example link with the correct
    password, the analytics form appends no entry and answers with a
    report, not a redirect, and the direct path logs the sentinel where
    the claim has the caller's address. *)
Lemma validate_paths_counterexample :
  let db := Plain.db_secret in
  let form := validate_analytics_password Plain.check_password_hash db
                Plain.example_code "secret" "10.0.0.2" in
  let direct := validate_password Plain.check_password_hash db
                  Plain.example_code "secret" (Plain.noon + 1) in
  select_url db Plain.example_code = Some Plain.row_secret /\
  Plain.check_password_hash "plain$$secret" "secret" = true /\
  AccessLogs (fst form) = AccessLogs db /\
  (forall target, snd form <> HTMLResponse (Redirecting target)) /\
  (forall url, snd form <> RedirectResponse url) /\
  map ip_address (AccessLogs (fst direct)) = ["Validated Access"].
Proof.
  cbv zeta. repeat split; try (vm_compute; reflexivity);
    intros ?; vm_compute; discriminate.
Qed.

(** C2: on a link without password the hash comparison receives [None]
    and the handler ends in an uncaught [AttributeError], a 500 response,
    where the claim has Forbidden; the store is left unchanged. *)
Theorem validate_password_unprotected_crashes :
  select_url Plain.db_open Plain.example_code = Some Plain.row_open /\
  password Plain.row_open = None /\
  validate_password Plain.check_password_hash Plain.db_open
    Plain.example_code "anything" (Plain.noon + 1) =
    (Plain.db_open, Uncaught AttributeError).
Proof. repeat split; vm_compute; reflexivity. Qed.

(** ** Shortening *)

Section Shortening.

Variable generate_password_hash : string -> string -> string.
Variable check_password_hash : string -> string -> bool.

Lemma timedelta_hours_inr (hours : option Z) (delta : timedelta) :
  timedelta_hours hours = inr delta ->
  exists h, hours = Some h /\ delta = h * us_per_hour.
Proof.
  destruct hours as [h|]; cbn; [|discriminate].
  destruct (_ <=? _); [|discriminate].
  intros [= <-]. now exists h.
Qed.

Lemma datetime_add_inr (t : datetime) (d : timedelta) (r : datetime) :
  datetime_add t d = inr r -> r = t + d.
Proof.
  unfold datetime_add. destruct (_ && _); [|discriminate]. now intros [= <-].
Qed.

(** What a call of [shorten_url] does to the table of links: nothing, or
    one new row at the end, stamped with the two clock readings. *)
Lemma shorten_url_rows (db : DB) (request : URLRequest) (host : string)
    (now_expiry now_created : datetime) (salt : string) :
  let db' := fst (shorten_url generate_password_hash db request host
                    now_expiry now_created salt) in
  AccessLogs db' = AccessLogs db /\
  (URLs db' = URLs db \/
   exists h pwhash,
     req_expiry_hours request = Some h /\
     URLs db' = URLs db ++
       [mkURLRow (req_original_url request)
          (generate_short_url (req_original_url request))
          now_created (now_expiry + h * us_per_hour) pwhash]).
Proof.
  cbv zeta. unfold shorten_url.
  destruct (timedelta_hours _) as [e|delta] eqn:Hd; [now split; [|left]|].
  apply timedelta_hours_inr in Hd as (h & Hh & ->).
  destruct (datetime_add _ _) as [e|expires] eqn:Ha; [now split; [|left]|].
  apply datetime_add_inr in Ha as ->.
  match goal with
  | |- context [insert_url db ?r] => destruct (insert_url db r) as [db'|] eqn:Hi
  end; cbn [fst]; [|now split; [|left]].
  apply insert_url_fresh in Hi as [_ ->]. cbn [URLs AccessLogs].
  split; [reflexivity|]. right. eauto.
Qed.

Lemma shorten_url_valid (db : DB) (request : URLRequest) (host : string)
    (now_expiry now_created : datetime) (salt : string) :
  valid_expiry now_expiry (req_expiry_hours request) = true ->
  exists row,
    short_url row = generate_short_url (req_original_url request) /\
    shorten_url generate_password_hash db request host
      now_expiry now_created salt =
    (match insert_url db row with Some db' => db' | None => db end,
     JSONResponse
       (public_url host (generate_short_url (req_original_url request)))).
Proof.
  unfold valid_expiry, shorten_url.
  destruct (timedelta_hours _) as [e|delta]; [discriminate|].
  destruct (datetime_add _ _) as [e|expires]; [discriminate|].
  intros _. eexists. split; [|reflexivity]. reflexivity.
Qed.

Lemma handle_other_rows (db : DB) (c : call) :
  (forall request host n1 n2 salt, c <> Shorten request host n1 n2 salt) ->
  URLs (fst (handle generate_password_hash check_password_hash db c)) =
  URLs db.
Proof.
  intros Hc. destruct c as [r h n1 n2 s|code h n1 n2|code pw n|code pw h|code x h];
    cbn [handle].
  - now destruct (Hc r h n1 n2 s).
  - unfold redirect_to_url. destruct (select_url db code); [|reflexivity].
    destruct (_ <? _); [reflexivity|]. now destruct (truthy _).
  - unfold validate_password. destruct (select_url db code); [|reflexivity].
    now destruct (check_stored_password _ _ _) as [e|[|]].
  - unfold validate_analytics_password.
    destruct (select_url db code); [|reflexivity].
    now destruct (check_stored_password _ _ _) as [e|[|]].
  - now rewrite get_analytics_store.
Qed.

Lemma handle_keeps_expiry_order (db : DB) (c : call) :
  positive_expiry c ->
  Forall expires_after_creation (URLs db) ->
  Forall expires_after_creation
    (URLs (fst (handle generate_password_hash check_password_hash db c))).
Proof.
  intros Hc Hdb.
  destruct c as [r h n1 n2 s|code h n1 n2|code pw n|code pw h|code x h];
    try (rewrite handle_other_rows; [assumption | intros; discriminate]).
  cbn [handle].
  destruct (shorten_url_rows db r h n1 n2 s) as [_ [-> | (hrs & pwhash & Hh & ->)]];
    [assumption|].
  apply Forall_app. split; [assumption|].
  constructor; [|constructor].
  destruct Hc as (hrs' & Hh' & Hpos & Hclock).
  rewrite Hh in Hh'. injection Hh' as <-.
  unfold expires_after_creation; cbn [expires_at created_at]. lia.
Qed.

Lemma run_keeps_expiry_order (calls : list call) (db : DB) :
  Forall positive_expiry calls ->
  Forall expires_after_creation (URLs db) ->
  Forall expires_after_creation
    (URLs (run generate_password_hash check_password_hash db calls)).
Proof.
  revert db. induction calls as [|c calls IH]; intros db Hcalls Hdb.
  - exact Hdb.
  - inversion Hcalls as [|? ? Hc Hrest]; subst. cbn [run fold_left].
    apply IH; [assumption|].
    now apply handle_keeps_expiry_order.
Qed.

End Shortening.

(** C3, as the code has it: a missing [expiry_hours] becomes 24, a new
    link gets [created_at] from the second reading of the clock and
    [expires_at] from the first plus [expiry_hours] hours, and nothing
    checks the sign of [expiry_hours].  Along every sequence of calls
    whose Shorten requests have a positive [expiry_hours] (the clock
    moving by less than that between the two readings), every stored link
    has [expires_at > created_at]. *)
Theorem stored_links_expire_after_creation
    (generate_password_hash : string -> string -> string)
    (check_password_hash : string -> string -> bool) (calls : list call) :
  Forall positive_expiry calls ->
  Forall expires_after_creation
    (URLs (run generate_password_hash check_password_hash init_db calls)) /\
  (forall url pw, req_expiry_hours (URLRequest_validate url None pw) = Some 24) /\
  (forall db request host now_expiry now_created salt row,
     let db' := fst (shorten_url generate_password_hash db request host
                       now_expiry now_created salt) in
     In row (URLs db') -> ~ In row (URLs db) ->
     created_at row = now_created /\
     exists h, req_expiry_hours request = Some h /\
               expires_at row = now_expiry + h * us_per_hour).
Proof.
  intros Hcalls. split; [|split].
  - apply run_keeps_expiry_order; [assumption | constructor].
  - reflexivity.
  - intros db request host n1 n2 salt row db' Hin Hnew. subst db'.
    destruct (shorten_url_rows generate_password_hash db request host n1 n2 salt)
      as [_ [E | (h & pwhash & Hh & E)]]; rewrite E in Hin.
    + contradiction.
    + apply in_app_or in Hin as [Hin | [<- | []]]; [contradiction|].
      split; [reflexivity|]. now exists h.
Qed.

Lemma stored_links_expire_after_creation_witness :
  Forall expires_after_creation
    (URLs (run Plain.generate_password_hash Plain.check_password_hash init_db
             [Shorten (URLRequest_validate Plain.example_url None None)
                "10.0.0.1" Plain.noon (Plain.noon + 7) "c2FsdA";
              Resolve Plain.example_code "10.0.0.2"
                (Plain.noon + 9) (Plain.noon + 11)])).
Proof.
  apply (stored_links_expire_after_creation
           Plain.generate_password_hash Plain.check_password_hash).
  constructor; [|constructor; [exact I | constructor]].
  exists 24. repeat split; vm_compute; reflexivity.
Defined.

(** C3 fails as stated: [expiry_hours = -1] is accepted, and the link it
    stores expires an hour before it was created. *)
Lemma negative_expiry_counterexample :
  let out := shorten_url Plain.generate_password_hash init_db
               (mkURLRequest Plain.example_url (Some (-1)) None)
               "10.0.0.1" Plain.noon Plain.noon "c2FsdA" in
  snd out = JSONResponse "http://10.0.0.1:8000/2a1b4024" /\
  exists row,
    URLs (fst out) = [row] /\
    created_at row = Plain.noon /\
    expires_at row = Plain.noon - us_per_hour /\
    ~ expires_at row > created_at row.
Proof.
  cbv zeta. split; [vm_compute; reflexivity|].
  eexists. split; [vm_compute; reflexivity|].
  repeat split; vm_compute; congruence.
Qed.

(** C4, as the code has it: two Shorten requests for the same URL whose
    expiry arithmetic goes through ([expiry_hours] an integer, the clock
    plus that many hours inside the [datetime] range) both answer with the
    short code the generator gives that URL, and the second changes
    nothing in the store: the row found under the code after the first
    call is still the one there after the second.  A first call that
    meets an existing row leaves the store as it was, too; the duplicate
    raises no error. *)
Theorem shorten_same_url_twice
    (generate_password_hash : string -> string -> string) (db : DB)
    (r1 r2 : URLRequest) (host1 host2 : string)
    (now1 now1' now2 now2' : datetime) (salt1 salt2 : string) :
  req_original_url r1 = req_original_url r2 ->
  valid_expiry now1 (req_expiry_hours r1) = true ->
  valid_expiry now2 (req_expiry_hours r2) = true ->
  let code := generate_short_url (req_original_url r1) in
  let first := shorten_url generate_password_hash db r1 host1
                 now1 now1' salt1 in
  let second := shorten_url generate_password_hash (fst first) r2 host2
                  now2 now2' salt2 in
  snd first = JSONResponse (public_url host1 code) /\
  snd second = JSONResponse (public_url host2 code) /\
  fst second = fst first /\
  (exists row, select_url (fst first) code = Some row /\
               select_url (fst second) code = Some row) /\
  (forall row, select_url db code = Some row -> fst first = db).
Proof.
  intros Hurl Hv1 Hv2. cbv zeta.
  destruct (shorten_url_valid generate_password_hash db r1 host1
              now1 now1' salt1 Hv1) as (row1 & Hc1 & ->).
  cbn [fst snd].
  set (db1 := match insert_url db row1 with Some d => d | None => db end).
  destruct (shorten_url_valid generate_password_hash db1 r2 host2
              now2 now2' salt2 Hv2) as (row2 & Hc2 & ->).
  cbn [fst snd]. rewrite <- Hurl in *.
  assert (Hfound : exists row,
             select_url db1 (generate_short_url (req_original_url r1))
             = Some row).
  { subst db1. destruct (insert_url db row1) as [d|] eqn:Hi.
    - apply insert_url_fresh in Hi as [Hi _]. rewrite Hc1 in Hi. eauto.
    - unfold insert_url in Hi.
      destruct (existsb _ (URLs db)) eqn:E; [|discriminate].
      rewrite Hc1 in E. unfold select_url.
      destruct (find _ (URLs db)) as [r|] eqn:F; [eauto|].
      apply existsb_exists in E as (r & Hin & Hr).
      now rewrite (find_none _ _ F r Hin) in Hr. }
  destruct Hfound as (row & Hrow).
  assert (Hdup : insert_url db1 row2 = None).
  { apply insert_url_duplicate with (found := row). now rewrite Hc2. }
  rewrite Hdup. repeat split; eauto.
  intros row0 Hrow0. subst db1.
  rewrite (insert_url_duplicate db row1 row0); [reflexivity|].
  now rewrite Hc1.
Qed.

Lemma shorten_same_url_twice_witness :
  let first := shorten_url Plain.generate_password_hash init_db
                 (URLRequest_validate Plain.example_url None None)
                 "10.0.0.1" Plain.noon Plain.noon "c2FsdA" in
  let second := shorten_url Plain.generate_password_hash (fst first)
                  (URLRequest_validate Plain.example_url (Some (Some 48))
                     (Some (Some "secret")))
                  "10.0.0.2" (Plain.noon + 5) (Plain.noon + 5) "c2FsdB" in
  snd first = JSONResponse (public_url "10.0.0.1" Plain.example_code) /\
  snd second = JSONResponse (public_url "10.0.0.2" Plain.example_code) /\
  fst second = fst first.
Proof.
  cbv zeta.
  destruct (shorten_same_url_twice Plain.generate_password_hash init_db
              (URLRequest_validate Plain.example_url None None)
              (URLRequest_validate Plain.example_url (Some (Some 48))
                 (Some (Some "secret")))
              "10.0.0.1" "10.0.0.2" Plain.noon Plain.noon
              (Plain.noon + 5) (Plain.noon + 5) "c2FsdA" "c2FsdB"
              eq_refl eq_refl eq_refl) as (H1 & H2 & H3 & _).
  change Plain.example_code
    with (generate_short_url
            (req_original_url (URLRequest_validate Plain.example_url None None))).
  split; [exact H1|]. split; [exact H2|]. exact H3.
Defined.

(** C4 fails as stated: after a first Shorten of the example URL, a second
    request for the same URL with ["expiry_hours": null] ends in an
    uncaught [TypeError], and one with [expiry_hours = 100000000] in an
    uncaught [OverflowError]; neither answers with a short code. *)
Lemma shorten_twice_bad_expiry_counterexample :
  let first := shorten_url Plain.generate_password_hash init_db
                 (URLRequest_validate Plain.example_url None None)
                 "10.0.0.1" Plain.noon Plain.noon "c2FsdA" in
  let null := shorten_url Plain.generate_password_hash (fst first)
                (URLRequest_validate Plain.example_url (Some None) None)
                "10.0.0.1" (Plain.noon + 5) (Plain.noon + 5) "c2FsdB" in
  let far := shorten_url Plain.generate_password_hash (fst first)
               (URLRequest_validate Plain.example_url
                  (Some (Some 100000000)) None)
               "10.0.0.1" (Plain.noon + 5) (Plain.noon + 5) "c2FsdB" in
  snd first = JSONResponse "http://10.0.0.1:8000/2a1b4024" /\
  snd null = Uncaught TypeError /\
  snd far = Uncaught OverflowError /\
  (forall short, snd null <> JSONResponse short) /\
  (forall short, snd far <> JSONResponse short).
Proof.
  cbv zeta.
  split; [vm_compute; reflexivity|].
  split; [vm_compute; reflexivity|].
  split; [vm_compute; reflexivity|].
  split; intros short; vm_compute; discriminate.
Qed.

(** ** Redirection *)

Lemma redirect_to_url_expired (db : DB) (code host : string)
    (now_check now_log : datetime) (row : URLRow) :
  select_url db code = Some row ->
  expires_at row < now_check ->
  redirect_to_url db code host now_check now_log =
    (db, HTTPException 410 "Short URL has expired.").
Proof.
  intros Hsel Hexp. unfold redirect_to_url.
  apply Z.ltb_lt in Hexp. now rewrite Hsel, Hexp.
Qed.

(** C5, as the code has it: [GET /{short_code}] answers 404 when no link
    has the code and 410 whenever [expires_at < now], protected or not, so
    a link whose expiry lies in the past never redirects; at
    [now <= expires_at], the instant [now = expires_at] included, the link
    has not expired. *)
Theorem redirect_not_found_or_expired (db : DB) (code host : string)
    (now_check now_log : datetime) :
  let out := redirect_to_url db code host now_check now_log in
  (select_url db code = None ->
   out = (db, HTTPException 404 "Short URL not found.")) /\
  (forall row, select_url db code = Some row ->
     expires_at row < now_check ->
     out = (db, HTTPException 410 "Short URL has expired.") /\
     forall url, snd out <> RedirectResponse url) /\
  (forall row, select_url db code = Some row ->
     now_check <= expires_at row ->
     forall detail, snd out <> HTTPException 410 detail).
Proof.
  cbv zeta. split; [|split].
  - unfold redirect_to_url. now intros ->.
  - intros row Hsel Hexp.
    rewrite (redirect_to_url_expired _ _ _ _ _ _ Hsel Hexp).
    split; [reflexivity | discriminate].
  - unfold redirect_to_url. intros row -> Hle.
    apply Z.ltb_ge in Hle. rewrite Hle.
    now destruct (truthy (password row)).
Qed.

Lemma redirect_not_found_or_expired_witness :
  redirect_to_url init_db "deadbeef" "10.0.0.2" Plain.noon Plain.noon =
    (init_db, HTTPException 404 "Short URL not found.") /\
  redirect_to_url Plain.db_secret Plain.example_code "10.0.0.2"
    (Plain.noon + us_per_day + 1) (Plain.noon + us_per_day + 1) =
    (Plain.db_secret, HTTPException 410 "Short URL has expired.") /\
  snd (redirect_to_url Plain.db_open Plain.example_code "10.0.0.2"
         (Plain.noon + us_per_day) (Plain.noon + us_per_day)) <>
    HTTPException 410 "Short URL has expired.".
Proof.
  split; [|split].
  - apply (redirect_not_found_or_expired init_db "deadbeef" "10.0.0.2"
             Plain.noon Plain.noon). reflexivity.
  - apply (redirect_not_found_or_expired Plain.db_secret Plain.example_code
             "10.0.0.2" (Plain.noon + us_per_day + 1)
             (Plain.noon + us_per_day + 1)) with (row := Plain.row_secret).
    + reflexivity.
    + vm_compute. reflexivity.
  - apply (redirect_not_found_or_expired Plain.db_open Plain.example_code
             "10.0.0.2" (Plain.noon + us_per_day)
             (Plain.noon + us_per_day)) with (row := Plain.row_open).
    + reflexivity.
    + vm_compute. discriminate.
Defined.

(** C5 fails at the boundary: at [now = expires_at], where the claim has
    Expired, the open example link still redirects and logs the access. *)
Lemma expiry_boundary_counterexample :
  let now := Plain.noon + us_per_day in
  select_url Plain.db_open Plain.example_code = Some Plain.row_open /\
  now >= expires_at Plain.row_open /\
  redirect_to_url Plain.db_open Plain.example_code "10.0.0.2" now now =
    (insert_log Plain.db_open (mkAccessLog Plain.example_code now "10.0.0.2"),
     RedirectResponse Plain.example_url).
Proof.
  cbv zeta. repeat split; vm_compute; try reflexivity; discriminate.
Qed.

(** C7: on a protected link that has not expired, [GET /{short_code}]
    answers with the password form and changes nothing in the store, so no
    access is logged; the form is built from the short code alone: every
    protected, unexpired link under that code, whatever its
    [original_url], gets the same response. *)
Theorem protected_link_is_challenged (db : DB) (code host : string)
    (now_check now_log : datetime) (row : URLRow) :
  select_url db code = Some row ->
  is_protected row = true ->
  now_check <= expires_at row ->
  let out := redirect_to_url db code host now_check now_log in
  out = (db, HTMLResponse (PasswordPrompt ("/" ++ code ++ "/validate")%string)) /\
  AccessLogs (fst out) = AccessLogs db /\
  (forall db2 host2 now_check2 now_log2 row2,
     select_url db2 code = Some row2 ->
     is_protected row2 = true ->
     now_check2 <= expires_at row2 ->
     snd (redirect_to_url db2 code host2 now_check2 now_log2) = snd out).
Proof.
  assert (E : forall d h n1 n2 r,
             select_url d code = Some r -> is_protected r = true ->
             n1 <= expires_at r ->
             redirect_to_url d code h n1 n2 =
             (d, HTMLResponse (PasswordPrompt ("/" ++ code ++ "/validate")%string))).
  { intros d h n1 n2 r Hsel Hprot Hle. unfold redirect_to_url.
    unfold is_protected in Hprot. apply Z.ltb_ge in Hle.
    now rewrite Hsel, Hle, Hprot. }
  intros Hsel Hprot Hle. cbv zeta.
  rewrite (E _ _ _ _ _ Hsel Hprot Hle). repeat split.
  intros db2 host2 m1 m2 row2 Hsel2 Hprot2 Hle2.
  now rewrite (E _ _ _ _ _ Hsel2 Hprot2 Hle2).
Qed.

Lemma protected_link_is_challenged_witness :
  redirect_to_url Plain.db_secret Plain.example_code "10.0.0.2"
    (Plain.noon + 1) (Plain.noon + 2) =
  (Plain.db_secret, HTMLResponse (PasswordPrompt "/2a1b4024/validate")).
Proof.
  apply (protected_link_is_challenged Plain.db_secret Plain.example_code
           "10.0.0.2" (Plain.noon + 1) (Plain.noon + 2) Plain.row_secret).
  - reflexivity.
  - reflexivity.
  - vm_compute. discriminate.
Defined.

(** Every hash [shorten_url] stores passes the handlers' test, provided
    the hashing scheme never returns the empty string. *)
Lemma stored_hashes_are_set
    (generate_password_hash : string -> string -> string)
    (check_password_hash : string -> string -> bool) (calls : list call) :
  (forall pw salt, generate_password_hash pw salt <> "") ->
  Forall hash_set_or_absent
    (URLs (run generate_password_hash check_password_hash init_db calls)).
Proof.
  intros Hgen. generalize (Forall_nil hash_set_or_absent).
  change (@nil URLRow) with (URLs init_db).
  generalize init_db as db. induction calls as [|c calls IH]; intros db Hdb.
  - exact Hdb.
  - cbn [run fold_left]. apply IH.
    destruct c as [r h n1 n2 s|code h n1 n2|code pw n|code pw h|code x h];
      try (rewrite handle_other_rows; [assumption | intros; discriminate]).
    cbn [handle]. unfold shorten_url.
    destruct (timedelta_hours _); [assumption|].
    destruct (datetime_add _ _); [assumption|].
    match goal with
    | |- context [insert_url db ?r] =>
        destruct (insert_url db r) as [db'|] eqn:Hi
    end; cbn [fst]; [|assumption].
    apply insert_url_fresh in Hi as [_ ->]. cbn [URLs].
    apply Forall_app. split; [assumption|]. constructor; [|constructor].
    unfold hash_set_or_absent, is_protected. cbn [password].
    destruct (req_password r) as [pw|]; [|now left].
    cbn [truthy]. destruct (pw =? "")%string; cbn [negb]; [now left|].
    right. cbn [truthy]. apply negb_true_iff, String.eqb_neq, Hgen.
Qed.

(** ** Analytics reports *)

Lemma chronological_filter (keep : AccessLog -> bool) (logs : list AccessLog) :
  chronological (map accessed_at logs) ->
  chronological (map accessed_at (filter keep logs)).
Proof.
  unfold chronological.
  induction logs as [|l logs IH]; cbn [map filter]; intros H; [constructor|].
  apply StronglySorted_inv in H as [Hsorted Hhead].
  destruct (keep l); cbn [map]; [|now apply IH].
  constructor; [now apply IH|].
  rewrite Forall_forall in *. intros t Ht.
  apply in_map_iff in Ht as (l' & <- & Hl').
  apply filter_In in Hl' as [Hl' _].
  apply Hhead, in_map_iff. now exists l'.
Qed.

Lemma report_logs_times (db : DB) (row : URLRow) (host code : string) :
  map fst (access_logs (build_analytics db row host code)) =
  map accessed_at (select_logs db code).
Proof.
  unfold build_analytics; cbn [access_logs].
  rewrite map_map. reflexivity.
Qed.

(** C6, as the code has it: for an existing link, [GET
    /analytics/{short_code}] answers with the report whatever the header
    when the link is unprotected; when it is protected, with the password
    form if the header is missing or empty, with 403 if it holds a
    non-empty password that does not match, and with the report if it
    matches.  The report counts the access log rows of the code and lists
    them in insertion order, which is chronological whenever the log is. *)
Theorem get_analytics_outcomes
    (check_password_hash : string -> string -> bool) (db : DB)
    (code host : string) (row : URLRow) :
  select_url db code = Some row ->
  let get x := snd (get_analytics check_password_hash db code x host) in
  let data := build_analytics db row host code in
  let rows := filter (fun l => (log_short_url l =? code)%string)
                (AccessLogs db) in
  (is_protected row = false ->
   forall x, get x = HTMLResponse (Analytics data)) /\
  (is_protected row = true ->
   get None = analytics_prompt code /\
   get (Some "") = analytics_prompt code /\
   forall pwhash supplied,
     password row = Some pwhash -> supplied <> "" ->
     (check_password_hash pwhash supplied = false ->
      get (Some supplied) = HTTPException 403 "Password is incorrect.") /\
     (check_password_hash pwhash supplied = true ->
      get (Some supplied) = HTMLResponse (Analytics data))) /\
  access_count data = Z.of_nat (List.length rows) /\
  access_logs data = map (fun l => (accessed_at l, ip_address l)) rows /\
  (chronological (map accessed_at (AccessLogs db)) ->
   chronological (map fst (access_logs data))).
Proof.
  intros Hsel. cbv zeta. split; [|split; [|split; [|split]]].
  - intros Hopen x.
    now rewrite (get_analytics_unprotected _ _ _ x host _ Hsel Hopen).
  - intros Hprot. unfold is_protected in Hprot.
    unfold get_analytics, analytics_prompt. rewrite Hsel, Hprot.
    split; [reflexivity|]. split; [reflexivity|].
    intros pwhash supplied Hpw Hne. apply String.eqb_neq in Hne.
    unfold check_stored_password. rewrite Hpw. cbn [truthy]. rewrite Hne.
    cbn [negb snd]. split; intros ->; reflexivity.
  - reflexivity.
  - reflexivity.
  - intros Hlog. rewrite report_logs_times. now apply chronological_filter.
Qed.

Lemma get_analytics_outcomes_witness :
  snd (get_analytics Plain.check_password_hash Plain.db_secret
         Plain.example_code None "10.0.0.2") =
    analytics_prompt Plain.example_code /\
  snd (get_analytics Plain.check_password_hash Plain.db_secret
         Plain.example_code (Some "guess") "10.0.0.2") =
    HTTPException 403 "Password is incorrect." /\
  snd (get_analytics Plain.check_password_hash Plain.db_secret
         Plain.example_code (Some "secret") "10.0.0.2") =
    HTMLResponse
      (Analytics (build_analytics Plain.db_secret Plain.row_secret
                    "10.0.0.2" Plain.example_code)).
Proof.
  destruct (get_analytics_outcomes Plain.check_password_hash Plain.db_secret
              Plain.example_code "10.0.0.2" Plain.row_secret eq_refl)
    as (_ & Hprot & _).
  destruct (Hprot eq_refl) as (Hnone & _ & Hsupplied).
  split; [exact Hnone|]. split.
  - apply (Hsupplied "plain$$secret" "guess" eq_refl); [discriminate|].
    reflexivity.
  - apply (Hsupplied "plain$$secret" "secret" eq_refl); [discriminate|].
    reflexivity.
Defined.

(** C6 fails for an empty header: it is a supplied credential and it
    does not match the stored hash, yet the protected example link
    answers with the password form, not with 403. *)
Lemma empty_credential_counterexample :
  select_url Plain.db_secret Plain.example_code = Some Plain.row_secret /\
  password Plain.row_secret = Some "plain$$secret" /\
  Plain.check_password_hash "plain$$secret" "" = false /\
  snd (get_analytics Plain.check_password_hash Plain.db_secret
         Plain.example_code (Some "") "10.0.0.2") =
    HTMLResponse (AnalyticsPasswordPrompt "/analytics/2a1b4024/validate") /\
  forall detail,
    snd (get_analytics Plain.check_password_hash Plain.db_secret
           Plain.example_code (Some "") "10.0.0.2") <>
    HTTPException 403 detail.
Proof. repeat split; try (vm_compute; reflexivity). intros d. vm_compute. discriminate. Qed.

(** ** Expiry outside redirection *)

Lemma select_url_reschedule (t : datetime) (db : DB) (code : string) :
  select_url (reschedule t db) code =
  option_map (with_expiry t) (select_url db code).
Proof.
  unfold select_url, reschedule; cbn [URLs].
  induction (URLs db) as [|r rs IH]; cbn; [reflexivity|].
  destruct (short_url r =? code)%string; [reflexivity | exact IH].
Qed.

(** C10: expiry is checked by [GET /{short_code}] alone.  On a link whose
    [expires_at] lies in the past, that endpoint answers 410, while
    [POST /{short_code}/validate] with the correct password still answers
    with the redirecting page and appends one access log entry, the
    access log being the old one followed by that entry, and
    [GET /analytics/{short_code}] still answers with the report (link
    unprotected, or correct password in the header).  Neither reads
    [expires_at]: moving every link's expiry to any [t] changes nothing in
    what validation does, and in analytics only the expiry printed. *)
Theorem expiry_enforced_by_redirect_only
    (check_password_hash : string -> string -> bool) (db : DB)
    (code pw host : string) (now : datetime) (row : URLRow) :
  select_url db code = Some row ->
  expires_at row < now ->
  let report := HTMLResponse (Analytics (build_analytics db row host code)) in
  redirect_to_url db code host now now =
    (db, HTTPException 410 "Short URL has expired.") /\
  (forall pwhash,
     password row = Some pwhash -> check_password_hash pwhash pw = true ->
     validate_password check_password_hash db code pw now =
       (insert_log db (mkAccessLog code now sentinel_ip),
        HTMLResponse (Redirecting (original_url row))) /\
     URLs (fst (validate_password check_password_hash db code pw now)) =
       URLs db /\
     AccessLogs (fst (validate_password check_password_hash db code pw now)) =
       AccessLogs db ++ [mkAccessLog code now sentinel_ip] /\
     (pw <> "" ->
      get_analytics check_password_hash db code (Some pw) host =
        (db, report))) /\
  (is_protected row = false ->
   forall x, get_analytics check_password_hash db code x host = (db, report)) /\
  (forall t,
     let out := validate_password check_password_hash db code pw now in
     validate_password check_password_hash (reschedule t db) code pw now =
       (reschedule t (fst out), snd out)) /\
  (forall t x,
     let out := get_analytics check_password_hash db code x host in
     get_analytics check_password_hash (reschedule t db) code x host =
       (reschedule t db, printed_expiry t (snd out))).
Proof.
  intros Hsel Hexp. cbv zeta. split; [|split; [|split; [|split]]].
  - now apply redirect_to_url_expired with (row := row).
  - intros pwhash Hpw Hok.
    rewrite (validate_password_correct _ _ _ _ _ _ _ Hsel Hpw Hok).
    cbn [fst insert_log URLs AccessLogs].
    split; [reflexivity|]. split; [reflexivity|]. split; [reflexivity|].
    intros Hne. now apply get_analytics_correct with (pwhash := pwhash).
  - intros Hopen x. now apply get_analytics_unprotected.
  - intros t. unfold validate_password.
    rewrite select_url_reschedule, Hsel. cbn [option_map with_expiry password original_url].
    destruct (check_stored_password _ _ _) as [e|[|]]; reflexivity.
  - intros t x. unfold get_analytics.
    rewrite select_url_reschedule, Hsel.
    cbn [option_map with_expiry password].
    destruct (truthy (password row)); [|reflexivity].
    destruct x as [p|]; [|reflexivity].
    destruct (truthy (Some p)); [|reflexivity].
    destruct (check_stored_password _ _ _) as [e|[|]]; reflexivity.
Qed.

Lemma expiry_enforced_by_redirect_only_witness :
  let late := Plain.noon + 2 * us_per_day in
  redirect_to_url Plain.db_secret Plain.example_code "10.0.0.2" late late =
    (Plain.db_secret, HTTPException 410 "Short URL has expired.") /\
  snd (validate_password Plain.check_password_hash Plain.db_secret
         Plain.example_code "secret" late) =
    HTMLResponse (Redirecting Plain.example_url) /\
  AccessLogs (fst (validate_password Plain.check_password_hash Plain.db_secret
                     Plain.example_code "secret" late)) =
    [mkAccessLog Plain.example_code late "Validated Access"] /\
  get_analytics Plain.check_password_hash Plain.db_secret
    Plain.example_code (Some "secret") "10.0.0.2" =
    (Plain.db_secret,
     HTMLResponse
       (Analytics (build_analytics Plain.db_secret Plain.row_secret
                     "10.0.0.2" Plain.example_code))).
Proof.
  cbv zeta.
  assert (Hlate : expires_at Plain.row_secret < Plain.noon + 2 * us_per_day)
    by (vm_compute; reflexivity).
  destruct (expiry_enforced_by_redirect_only Plain.check_password_hash
              Plain.db_secret Plain.example_code "secret" "10.0.0.2"
              (Plain.noon + 2 * us_per_day) Plain.row_secret eq_refl Hlate)
    as (H410 & Hvalid & _).
  destruct (Hvalid "plain$$secret" eq_refl eq_refl)
    as (Hredirect & _ & Hlogs & Hreport).
  split; [exact H410|].
  split; [now rewrite Hredirect|].
  split; [exact Hlogs|].
  apply Hreport. discriminate.
Defined.

(** * Further properties of the handlers *)

(** ** One call at a time *)

Section Steps.

Variable generate_password_hash : string -> string -> string.
Variable check_password_hash : string -> string -> bool.

Local Abbreviation step := (handle generate_password_hash check_password_hash).
Local Abbreviation runs := (run generate_password_hash check_password_hash).

(** A call leaves the store alone, or inserts one link under a code that
    had none, or appends one access log entry for a code that has one. *)
Lemma handle_cases (db : DB) (c : call) :
  fst (step db c) = db \/
  (exists row, insert_url db row = Some (fst (step db c)) /\
               is_failure (snd (step db c)) = false) \/
  (exists entry row t,
     fst (step db c) = insert_log db entry /\
     select_url db (log_short_url entry) = Some row /\
     log_time c = [t] /\ accessed_at entry = t /\
     is_failure (snd (step db c)) = false).
Proof.
  destruct c as [r h n1 n2 s|code h n1 n2|code pw n|code pw h|code x h];
    cbn [handle].
  - unfold shorten_url.
    destruct (timedelta_hours _); [now left|].
    destruct (datetime_add _ _); [now left|].
    match goal with
    | |- context [insert_url db ?r] =>
        destruct (insert_url db r) as [db'|] eqn:Hi
    end; cbn [fst snd]; [|now left].
    right. left. eexists. split; [exact Hi | reflexivity].
  - unfold redirect_to_url.
    destruct (select_url db code) as [row|] eqn:Hsel; [|now left].
    destruct (_ <? _); [now left|].
    destruct (truthy _); [now left|].
    right. right. exists (mkAccessLog code n2 h), row, n2. now repeat split.
  - unfold validate_password.
    destruct (select_url db code) as [row|] eqn:Hsel; [|now left].
    destruct (check_stored_password _ _ _) as [e|[|]]; [now left| |now left].
    right. right.
    exists (mkAccessLog code n "Validated Access"), row, n. now repeat split.
  - unfold validate_analytics_password.
    destruct (select_url db code) as [row|]; [|now left].
    destruct (check_stored_password _ _ _) as [e|[|]]; now left.
  - left. apply get_analytics_store.
Qed.

Lemma run_cons (db : DB) (c : call) (calls : list call) :
  runs db (c :: calls) = runs (fst (step db c)) calls.
Proof. reflexivity. Qed.

Lemma select_url_after_insert (db db' : DB) (new : URLRow) (code : string)
    (row : URLRow) :
  insert_url db new = Some db' ->
  select_url db code = Some row ->
  select_url db' code = Some row.
Proof.
  intros Hi Hsel. apply insert_url_fresh in Hi as [_ ->].
  unfold select_url in *; cbn [URLs].
  induction (URLs db) as [|r rs IH]; cbn in *; [discriminate|].
  destruct (short_url r =? code)%string; [assumption | now apply IH].
Qed.

Lemma handle_keeps_link (db : DB) (c : call) (code : string) (row : URLRow) :
  select_url db code = Some row ->
  select_url (fst (step db c)) code = Some row.
Proof.
  intros Hsel.
  destruct (handle_cases db c)
    as [-> | [(new & Hi & _) | (entry & r & t & -> & _)]].
  - assumption.
  - eapply select_url_after_insert; eassumption.
  - assumption.
Qed.

Lemma run_keeps_link (calls : list call) (db : DB) (code : string)
    (row : URLRow) :
  select_url db code = Some row ->
  select_url (runs db calls) code = Some row.
Proof.
  revert db. induction calls as [|c calls IH]; intros db Hsel; [exact Hsel|].
  rewrite run_cons. apply IH.
  now apply handle_keeps_link.
Qed.

Lemma insert_url_keeps_codes_distinct (db db' : DB) (row : URLRow) :
  insert_url db row = Some db' ->
  NoDup (map short_url (URLs db)) ->
  NoDup (map short_url (URLs db')).
Proof.
  unfold insert_url.
  destruct (existsb _ (URLs db)) eqn:E; [discriminate|].
  intros [= <-] Hnd. cbn [URLs]. rewrite map_app. cbn [map].
  apply NoDup_incl_NoDup with (l := short_url row :: map short_url (URLs db)).
  - constructor; [|assumption].
    intros Hin. apply in_map_iff in Hin as (r & Hr & Hin).
    assert (existsb (fun r0 => (short_url r0 =? short_url row)%string)
              (URLs db) = true) as E'.
    { apply existsb_exists. exists r. split; [assumption|].
      now apply String.eqb_eq. }
    congruence.
  - rewrite length_app. cbn. lia.
  - intros x [<- | Hin]; apply in_or_app; [right; now left | now left].
Qed.

Lemma run_keeps_codes_distinct (calls : list call) (db : DB) :
  NoDup (map short_url (URLs db)) ->
  NoDup (map short_url (URLs (runs db calls))).
Proof.
  revert db. induction calls as [|c calls IH]; intros db Hnd; [exact Hnd|].
  rewrite run_cons. apply IH.
  destruct (handle_cases db c)
    as [-> | [(new & Hi & _) | (entry & r & t & -> & _)]].
  - assumption.
  - eapply insert_url_keeps_codes_distinct; eassumption.
  - assumption.
Qed.

Lemma select_url_own_code (db : DB) (row : URLRow) :
  NoDup (map short_url (URLs db)) ->
  In row (URLs db) ->
  select_url db (short_url row) = Some row.
Proof.
  unfold select_url. induction (URLs db) as [|r rs IH]; cbn [map find In];
    intros Hnd Hin; [contradiction|].
  apply NoDup_cons_iff in Hnd as [Hfresh Hnd].
  destruct Hin as [-> | Hin]; [now rewrite String.eqb_refl|].
  destruct (short_url r =? short_url row)%string eqn:E; [|now apply IH].
  apply String.eqb_eq in E. exfalso. apply Hfresh. rewrite E.
  now apply in_map.
Qed.

Lemma run_grows (calls : list call) (db : DB) :
  exists new_links new_logs,
    URLs (runs db calls) = URLs db ++ new_links /\
    AccessLogs (runs db calls) = AccessLogs db ++ new_logs /\
    (List.length new_links + List.length new_logs <= List.length calls)%nat.
Proof.
  revert db. induction calls as [|c calls IH]; intros db.
  - exists [], []. now rewrite !app_nil_r.
  - rewrite run_cons.
    destruct (IH (fst (step db c))) as (ls & gs & Hl & Hg & Hn).
    rewrite Hl, Hg.
    destruct (handle_cases db c)
      as [-> | [(new & Hi & _) | (entry & r & t & -> & _)]].
    + exists ls, gs. cbn [List.length]. repeat split; lia.
    + apply insert_url_fresh in Hi as [_ ->]. cbn [URLs AccessLogs].
      exists (new :: ls), gs. rewrite <- app_assoc. cbn [List.length app].
      repeat split; lia.
    + cbn [insert_log URLs AccessLogs].
      exists ls, (entry :: gs). rewrite <- app_assoc. cbn [List.length app].
      repeat split; lia.
Qed.

Lemma run_keeps_log_references (calls : list call) (db : DB) :
  Forall (log_references_link db) (AccessLogs db) ->
  Forall (log_references_link (runs db calls)) (AccessLogs (runs db calls)).
Proof.
  revert db. induction calls as [|c calls IH]; intros db Hdb; [exact Hdb|].
  rewrite run_cons. apply IH.
  assert (Hold : Forall (log_references_link (fst (step db c)))
                   (AccessLogs db)).
  { eapply Forall_impl; [|exact Hdb].
    intros e (row & Hrow). exists row. now apply handle_keeps_link. }
  destruct (handle_cases db c)
    as [E | [(new & Hi & _) | (entry & r & t & E & Hr & _)]].
  - now rewrite E in *.
  - apply insert_url_fresh in Hi as [_ E]. rewrite E in *. exact Hold.
  - rewrite E in *. cbn [insert_log AccessLogs]. apply Forall_app.
    split; [exact Hold|]. constructor; [|constructor]. now exists r.
Qed.

Lemma sorted_without_middle (l m r : list Z) :
  StronglySorted Z.le (l ++ m ++ r) -> StronglySorted Z.le (l ++ r).
Proof.
  induction l as [|x l IH]; cbn [app].
  - induction m as [|y m IHm]; cbn [app]; [trivial|].
    intros H. apply StronglySorted_inv in H as [H _]. now apply IHm.
  - intros H. apply StronglySorted_inv in H as [H Hx].
    constructor; [now apply IH|].
    rewrite !Forall_app in *. tauto.
Qed.

Lemma run_keeps_log_sorted (calls : list call) (db : DB) :
  StronglySorted Z.le (map accessed_at (AccessLogs db) ++ log_times calls) ->
  chronological (map accessed_at (AccessLogs (runs db calls))).
Proof.
  unfold chronological. revert db.
  induction calls as [|c calls IH]; intros db H.
  - cbn in H. now rewrite app_nil_r in H.
  - rewrite run_cons. apply IH.
    unfold log_times in H. cbn [flat_map] in H. fold (log_times calls) in H.
    destruct (handle_cases db c)
      as [E | [(new & Hi & _) | (entry & r & t & E & _ & Ht & Hat & _)]].
    + rewrite E. now apply sorted_without_middle in H.
    + apply insert_url_fresh in Hi as [_ E]. rewrite E. cbn [AccessLogs].
      now apply sorted_without_middle in H.
    + rewrite E. rewrite Ht in H. cbn [insert_log AccessLogs].
      rewrite map_app, <- app_assoc. cbn [map]. now rewrite Hat.
Qed.

End Steps.

(** ** The store along a sequence of calls *)

(** X1: along every sequence of calls on a new database the short codes of
    the stored links are pairwise distinct, and every stored link is the
    one its own short code looks up. *)
Theorem short_codes_stay_unique
    (generate_password_hash : string -> string -> string)
    (check_password_hash : string -> string -> bool) (calls : list call) :
  let db := run generate_password_hash check_password_hash init_db calls in
  NoDup (map short_url (URLs db)) /\
  forall row, In row (URLs db) -> select_url db (short_url row) = Some row.
Proof.
  cbv zeta.
  assert (Hnd : NoDup (map short_url
                   (URLs (run generate_password_hash check_password_hash
                            init_db calls)))).
  { apply run_keeps_codes_distinct. constructor. }
  split; [exact Hnd|]. intros row. now apply select_url_own_code.
Qed.

Lemma short_codes_stay_unique_witness :
  let db := run Plain.generate_password_hash Plain.check_password_hash init_db
              [Shorten (URLRequest_validate Plain.example_url None None)
                 "10.0.0.1" Plain.noon Plain.noon "c2FsdA";
               Shorten (URLRequest_validate Plain.example_url None
                          (Some (Some "secret")))
                 "10.0.0.2" (Plain.noon + 5) (Plain.noon + 5) "c2FsdB"] in
  select_url db (short_url Plain.row_open) = Some Plain.row_open.
Proof.
  cbv zeta.
  apply (short_codes_stay_unique Plain.generate_password_hash
           Plain.check_password_hash).
  vm_compute. left. reflexivity.
Defined.

(** X2: a link is never changed or removed: the row a short code looks
    up is still the row it looks up after any sequence of calls, a new
    Shorten request for the same URL included. *)
Theorem links_never_change
    (generate_password_hash : string -> string -> string)
    (check_password_hash : string -> string -> bool) (db : DB)
    (calls : list call) (code : string) (row : URLRow) :
  select_url db code = Some row ->
  select_url (run generate_password_hash check_password_hash db calls) code =
  Some row.
Proof. apply run_keeps_link. Qed.

Lemma links_never_change_witness :
  select_url
    (run Plain.generate_password_hash Plain.check_password_hash Plain.db_open
       [Shorten (URLRequest_validate Plain.example_url (Some (Some 48))
                   (Some (Some "secret")))
          "10.0.0.2" (Plain.noon + 5) (Plain.noon + 5) "c2FsdB";
        Resolve Plain.example_code "10.0.0.3" (Plain.noon + 6) (Plain.noon + 6)])
    Plain.example_code = Some Plain.row_open.
Proof.
  apply (links_never_change Plain.generate_password_hash
           Plain.check_password_hash Plain.db_open).
  reflexivity.
Defined.

(** X3: both tables only grow, and only at the end: after any sequence of
    calls each table is the old one followed by new rows, at most one new
    row per call over the two tables together. *)
Theorem stores_only_grow
    (generate_password_hash : string -> string -> string)
    (check_password_hash : string -> string -> bool) (db : DB)
    (calls : list call) :
  let db' := run generate_password_hash check_password_hash db calls in
  exists new_links new_logs,
    URLs db' = URLs db ++ new_links /\
    AccessLogs db' = AccessLogs db ++ new_logs /\
    (List.length new_links + List.length new_logs <= List.length calls)%nat.
Proof. apply run_grows. Qed.

(** X4: along every sequence of calls on a new database, every access log
    entry carries a short code that has a link. *)
Theorem logs_reference_links
    (generate_password_hash : string -> string -> string)
    (check_password_hash : string -> string -> bool) (calls : list call) :
  let db := run generate_password_hash check_password_hash init_db calls in
  Forall (log_references_link db) (AccessLogs db).
Proof. cbv zeta. apply run_keeps_log_references. constructor. Qed.

(** X5: a call that answers with an error writes nothing: a sequence of
    calls each of which fails on a store leaves that store as it was. *)
Theorem failures_change_nothing
    (generate_password_hash : string -> string -> string)
    (check_password_hash : string -> string -> bool) (db : DB)
    (calls : list call) :
  (forall c, In c calls ->
     is_failure
       (snd (handle generate_password_hash check_password_hash db c)) = true) ->
  run generate_password_hash check_password_hash db calls = db.
Proof.
  induction calls as [|c calls IH]; intros Hfail; [reflexivity|].
  rewrite run_cons.
  assert (E : fst (handle generate_password_hash check_password_hash db c) = db).
  { specialize (Hfail c (or_introl eq_refl)).
    destruct (handle_cases generate_password_hash check_password_hash db c)
      as [E | [(new & _ & Hok) | (entry & r & t & _ & _ & _ & _ & Hok)]];
      [exact E | congruence | congruence]. }
  rewrite E. apply IH. intros c' Hin. apply Hfail. now right.
Qed.

Lemma failures_change_nothing_witness :
  run Plain.generate_password_hash Plain.check_password_hash Plain.db_secret
    [ValidateAndResolve Plain.example_code "guess" (Plain.noon + 1);
     ValidateAndResolve "deadbeef" "secret" (Plain.noon + 2);
     Resolve Plain.example_code "10.0.0.2"
       (Plain.noon + 2 * us_per_day) (Plain.noon + 2 * us_per_day);
     Shorten (mkURLRequest Plain.example_url None None)
       "10.0.0.2" Plain.noon Plain.noon "c2FsdA"] =
  Plain.db_secret.
Proof.
  apply (failures_change_nothing Plain.generate_password_hash
           Plain.check_password_hash Plain.db_secret).
  intros c [<- | [<- | [<- | [<- | []]]]]; vm_compute; reflexivity.
Defined.

(** X6: when the clock readings that may reach the access log never go
    backwards along a sequence of calls on a new database, the access log
    is in chronological order, and so is the list of accesses of every
    analytics report. *)
Theorem logs_chronological_under_monotone_clock
    (generate_password_hash : string -> string -> string)
    (check_password_hash : string -> string -> bool) (calls : list call) :
  StronglySorted Z.le (log_times calls) ->
  let db := run generate_password_hash check_password_hash init_db calls in
  chronological (map accessed_at (AccessLogs db)) /\
  forall row host code,
    chronological (map fst (access_logs (build_analytics db row host code))).
Proof.
  intros Hclock. cbv zeta.
  assert (Hlog : chronological
                   (map accessed_at
                      (AccessLogs (run generate_password_hash
                                     check_password_hash init_db calls)))).
  { apply run_keeps_log_sorted. exact Hclock. }
  split; [exact Hlog|]. intros row host code.
  rewrite report_logs_times. now apply chronological_filter.
Qed.

Lemma logs_chronological_under_monotone_clock_witness :
  chronological
    (map accessed_at
       (AccessLogs
          (run Plain.generate_password_hash Plain.check_password_hash init_db
             [Shorten (URLRequest_validate Plain.example_url None None)
                "10.0.0.1" Plain.noon Plain.noon "c2FsdA";
              Resolve Plain.example_code "10.0.0.2"
                (Plain.noon + 1) (Plain.noon + 2);
              Resolve Plain.example_code "10.0.0.3"
                (Plain.noon + 3) (Plain.noon + 4)]))).
Proof.
  refine (proj1 (logs_chronological_under_monotone_clock
                   Plain.generate_password_hash Plain.check_password_hash
                   [Shorten (URLRequest_validate Plain.example_url None None)
                      "10.0.0.1" Plain.noon Plain.noon "c2FsdA";
                    Resolve Plain.example_code "10.0.0.2"
                      (Plain.noon + 1) (Plain.noon + 2);
                    Resolve Plain.example_code "10.0.0.3"
                      (Plain.noon + 3) (Plain.noon + 4)] _)).
  cbn [log_times flat_map log_time app].
  repeat constructor; vm_compute; discriminate.
Defined.

(** X7: an expired link stays expired: once [expires_at < now], the
    redirect endpoint answers 410 at [now] and at every later time, after
    any sequence of calls; shortening the same URL again does not renew
    it. *)
Theorem expired_link_stays_expired
    (generate_password_hash : string -> string -> string)
    (check_password_hash : string -> string -> bool) (db : DB)
    (calls : list call) (code host : string) (row : URLRow)
    (now later now_log : datetime) :
  select_url db code = Some row ->
  expires_at row < now ->
  now <= later ->
  let db' := run generate_password_hash check_password_hash db calls in
  redirect_to_url db' code host later now_log =
    (db', HTTPException 410 "Short URL has expired.").
Proof.
  intros Hsel Hexp Hlater. cbv zeta.
  apply redirect_to_url_expired with (row := row); [|lia].
  now apply run_keeps_link.
Qed.

Lemma expired_link_stays_expired_witness :
  let late := Plain.noon + 2 * us_per_day in
  let db' := run Plain.generate_password_hash Plain.check_password_hash
               Plain.db_open
               [Shorten (URLRequest_validate Plain.example_url None None)
                  "10.0.0.1" late late "c2FsdA"] in
  redirect_to_url db' Plain.example_code "10.0.0.2" (late + 1) (late + 1) =
    (db', HTTPException 410 "Short URL has expired.").
Proof.
  cbv zeta.
  apply (expired_link_stays_expired Plain.generate_password_hash
           Plain.check_password_hash Plain.db_open _ Plain.example_code
           "10.0.0.2" Plain.row_open (Plain.noon + 2 * us_per_day)).
  - reflexivity.
  - vm_compute. reflexivity.
  - vm_compute. discriminate.
Defined.

(** ** From Shorten to the other endpoints *)

Lemma insert_url_absent (db : DB) (row : URLRow) :
  select_url db (short_url row) = None ->
  insert_url db row = Some (mkDB (URLs db ++ [row]) (AccessLogs db)).
Proof.
  unfold select_url, insert_url. intros Hnone.
  destruct (existsb _ (URLs db)) eqn:E; [|reflexivity].
  apply existsb_exists in E as (r & Hin & Hr).
  now rewrite (find_none _ _ Hnone r Hin) in Hr.
Qed.

Lemma shorten_url_fresh
    (generate_password_hash : string -> string -> string) (db : DB)
    (request : URLRequest) (host : string) (now_expiry now_created : datetime)
    (salt : string) (h : Z) :
  let code := generate_short_url (req_original_url request) in
  let row := mkURLRow (req_original_url request) code now_created
               (now_expiry + h * us_per_hour)
               (hashed_password generate_password_hash
                  (req_password request) salt) in
  select_url db code = None ->
  req_expiry_hours request = Some h ->
  valid_expiry now_expiry (Some h) = true ->
  shorten_url generate_password_hash db request host
    now_expiry now_created salt =
  (mkDB (URLs db ++ [row]) (AccessLogs db),
   JSONResponse (public_url host code)) /\
  select_url (mkDB (URLs db ++ [row]) (AccessLogs db)) code = Some row.
Proof.
  cbv zeta. intros Hfresh Hh Hvalid.
  unfold valid_expiry in Hvalid. unfold shorten_url. rewrite Hh.
  destruct (timedelta_hours (Some h)) as [e|delta] eqn:Hd; [discriminate|].
  apply timedelta_hours_inr in Hd as (h' & [= <-] & ->).
  destruct (datetime_add _ _) as [e|expires] eqn:Ha; [discriminate|].
  apply datetime_add_inr in Ha as ->.
  fold (hashed_password generate_password_hash (req_password request) salt).
  match goal with
  | |- context [insert_url db ?r] =>
      pose proof (insert_url_absent db r Hfresh) as Hi
  end.
  rewrite Hi. split; [reflexivity|].
  now apply insert_url_fresh in Hi as [Hi _].
Qed.

Lemma select_logs_insert_log (db : DB) (entry : AccessLog) (code : string) :
  select_logs (insert_log db entry) code =
  select_logs db code ++
  (if (log_short_url entry =? code)%string then [entry] else []).
Proof.
  unfold select_logs, insert_log; cbn [AccessLogs].
  now rewrite filter_app.
Qed.

Lemma redirect_to_url_open (db : DB) (code host : string)
    (now_check now_log : datetime) (row : URLRow) :
  select_url db code = Some row ->
  is_protected row = false ->
  now_check <= expires_at row ->
  redirect_to_url db code host now_check now_log =
    (insert_log db (mkAccessLog code now_log host),
     RedirectResponse (original_url row)).
Proof.
  unfold is_protected. intros Hsel Hopen Hle. unfold redirect_to_url.
  apply Z.ltb_ge in Hle. now rewrite Hsel, Hle, Hopen.
Qed.

Lemma redirect_to_url_protected (db : DB) (code host : string)
    (now_check now_log : datetime) (row : URLRow) :
  select_url db code = Some row ->
  is_protected row = true ->
  now_check <= expires_at row ->
  redirect_to_url db code host now_check now_log =
    (db, HTMLResponse (PasswordPrompt ("/" ++ code ++ "/validate")%string)).
Proof.
  unfold is_protected. intros Hsel Hprot Hle. unfold redirect_to_url.
  apply Z.ltb_ge in Hle. now rewrite Hsel, Hle, Hprot.
Qed.

(** X8: Shorten, then Resolve.  Take a Shorten request without password,
    or with the empty password, for a URL whose code has no link yet, and
    whose expiry arithmetic goes through: [expiry_hours] is an integer [h]
    and neither the [timedelta] nor the clock plus it overflows.  After
    it, and after any calls in between, [GET /{short_code}] at any time up
    to the first clock reading plus [h] hours redirects to that URL,
    leaves the links as they are, and the access log is the old one
    followed by one entry with the code, the logging time and the
    caller. *)
Theorem shorten_then_resolve
    (generate_password_hash : string -> string -> string)
    (check_password_hash : string -> string -> bool) (db : DB)
    (request : URLRequest) (host visitor : string)
    (now_expiry now_created now_check now_log : datetime) (salt : string)
    (h : Z) (calls : list call) :
  let code := generate_short_url (req_original_url request) in
  let db' := run generate_password_hash check_password_hash
               (fst (shorten_url generate_password_hash db request host
                       now_expiry now_created salt)) calls in
  select_url db code = None ->
  req_expiry_hours request = Some h ->
  valid_expiry now_expiry (Some h) = true ->
  truthy (req_password request) = false ->
  now_check <= now_expiry + h * us_per_hour ->
  let out := redirect_to_url db' code visitor now_check now_log in
  snd out = RedirectResponse (req_original_url request) /\
  URLs (fst out) = URLs db' /\
  AccessLogs (fst out) =
    AccessLogs db' ++ [mkAccessLog code now_log visitor].
Proof.
  cbv zeta. intros Hfresh Hh Hvalid Hpw Hle.
  destruct (shorten_url_fresh generate_password_hash db request host
              now_expiry now_created salt h Hfresh Hh Hvalid) as [-> Hsel].
  cbn [fst].
  apply (run_keeps_link generate_password_hash check_password_hash calls)
    in Hsel.
  rewrite (redirect_to_url_open _ _ _ _ _ _ Hsel);
    [cbn [fst snd insert_log URLs AccessLogs original_url]; repeat split
    | |exact Hle].
  unfold is_protected, hashed_password; cbn [password].
  destruct (req_password request) as [p|]; [|reflexivity].
  now rewrite Hpw.
Qed.

Lemma shorten_then_resolve_witness :
  let db' := run Plain.generate_password_hash Plain.check_password_hash
               (fst (shorten_url Plain.generate_password_hash init_db
                       (mkURLRequest Plain.example_url (Some 24) (Some ""))
                       "10.0.0.1" Plain.noon Plain.noon "c2FsdA"))
               [GetAnalytics Plain.example_code None "10.0.0.1"] in
  let out := redirect_to_url db' (generate_short_url Plain.example_url)
               "10.0.0.2" (Plain.noon + us_per_day)
               (Plain.noon + us_per_day) in
  snd out = RedirectResponse Plain.example_url /\
  URLs (fst out) = URLs db' /\
  AccessLogs (fst out) =
    AccessLogs db' ++
    [mkAccessLog (generate_short_url Plain.example_url)
       (Plain.noon + us_per_day) "10.0.0.2"].
Proof.
  refine (shorten_then_resolve Plain.generate_password_hash
            Plain.check_password_hash init_db
            (mkURLRequest Plain.example_url (Some 24) (Some ""))
            "10.0.0.1" "10.0.0.2" Plain.noon Plain.noon
            (Plain.noon + us_per_day) (Plain.noon + us_per_day) "c2FsdA" 24
            [GetAnalytics Plain.example_code None "10.0.0.1"] _ _ _ _ _).
  - reflexivity.
  - reflexivity.
  - vm_compute. reflexivity.
  - reflexivity.
  - vm_compute. discriminate.
Defined.

(** X9: Shorten with a password, then the password endpoints.  Take a
    Shorten request with a non-empty password for a URL whose code has no
    link yet, whose expiry arithmetic goes through ([expiry_hours] is an
    integer [h], neither the [timedelta] nor the clock plus it overflows),
    and a hashing scheme that accepts the password against the hash it
    made for it, that hash not empty.  After the request and any calls in
    between, [GET /{short_code}] up to the first clock reading plus [h]
    hours answers with the password form and leaves the store alone;
    [POST /{short_code}/validate] with that password answers with the
    redirecting page, leaves the links as they are, and the access log is
    the old one followed by one entry with the code, the time and the
    sentinel; with a non-empty password the scheme rejects it answers 403
    and leaves the store alone. *)
Theorem shorten_with_password_then_validate
    (generate_password_hash : string -> string -> string)
    (check_password_hash : string -> string -> bool) (db : DB)
    (request : URLRequest) (host visitor pw wrong : string)
    (now_expiry now_created now_check now : datetime) (salt : string)
    (h : Z) (calls : list call) :
  let code := generate_short_url (req_original_url request) in
  let pwhash := generate_password_hash pw salt in
  let db' := run generate_password_hash check_password_hash
               (fst (shorten_url generate_password_hash db request host
                       now_expiry now_created salt)) calls in
  select_url db code = None ->
  req_expiry_hours request = Some h ->
  valid_expiry now_expiry (Some h) = true ->
  req_password request = Some pw ->
  pw <> "" ->
  pwhash <> "" ->
  check_password_hash pwhash pw = true ->
  wrong <> "" ->
  check_password_hash pwhash wrong = false ->
  now_check <= now_expiry + h * us_per_hour ->
  let validated := validate_password check_password_hash db' code pw now in
  redirect_to_url db' code visitor now_check now =
    (db', HTMLResponse (PasswordPrompt ("/" ++ code ++ "/validate")%string)) /\
  (snd validated = HTMLResponse (Redirecting (req_original_url request)) /\
   URLs (fst validated) = URLs db' /\
   AccessLogs (fst validated) =
     AccessLogs db' ++ [mkAccessLog code now sentinel_ip]) /\
  validate_password check_password_hash db' code wrong now =
    (db', HTTPException 403 "Password is incorrect.").
Proof.
  cbv zeta. intros Hfresh Hh Hvalid Hpw Hne Hhash Hok Hwne Hwrong Hle.
  destruct (shorten_url_fresh generate_password_hash db request host
              now_expiry now_created salt h Hfresh Hh Hvalid) as [-> Hsel].
  cbn [fst].
  apply (run_keeps_link generate_password_hash check_password_hash calls)
    in Hsel.
  assert (Hstored : hashed_password generate_password_hash
                      (req_password request) salt
                    = Some (generate_password_hash pw salt)).
  { rewrite Hpw. unfold hashed_password. cbn [truthy].
    apply String.eqb_neq in Hne. now rewrite Hne. }
  rewrite Hstored in Hsel |- *.
  split; [|split].
  - eapply redirect_to_url_protected; [exact Hsel| |exact Hle].
    unfold is_protected; cbn [password truthy].
    apply String.eqb_neq in Hhash. now rewrite Hhash.
  - rewrite (validate_password_correct _ _ _ _ _ _ _ Hsel eq_refl Hok).
    cbn [fst snd insert_log URLs AccessLogs original_url]. repeat split.
  - now rewrite (validate_password_wrong _ _ _ _ _ _ _ Hsel eq_refl Hwrong).
Qed.

Lemma shorten_with_password_then_validate_witness :
  let db' := run Plain.generate_password_hash Plain.check_password_hash
               (fst (shorten_url Plain.generate_password_hash init_db
                       (mkURLRequest Plain.example_url (Some 24)
                          (Some "secret"))
                       "10.0.0.1" Plain.noon Plain.noon "c2FsdA"))
               [] in
  let validated := validate_password Plain.check_password_hash db'
                     (generate_short_url Plain.example_url) "secret"
                     (Plain.noon + 1) in
  snd validated = HTMLResponse (Redirecting Plain.example_url) /\
  AccessLogs (fst validated) =
    AccessLogs db' ++
    [mkAccessLog (generate_short_url Plain.example_url) (Plain.noon + 1)
       sentinel_ip] /\
  validate_password Plain.check_password_hash db'
    (generate_short_url Plain.example_url) "guess" (Plain.noon + 1) =
    (db', HTTPException 403 "Password is incorrect.").
Proof.
  assert (Hvalid : valid_expiry Plain.noon (Some 24) = true)
    by (vm_compute; reflexivity).
  assert (Hle : Plain.noon + 1 <= Plain.noon + 24 * us_per_hour)
    by (vm_compute; discriminate).
  assert (Hpw : "secret" <> "") by discriminate.
  assert (Hhash : Plain.generate_password_hash "secret" "c2FsdA" <> "")
    by discriminate.
  assert (Hwne : "guess" <> "") by discriminate.
  destruct (shorten_with_password_then_validate Plain.generate_password_hash
              Plain.check_password_hash init_db
              (mkURLRequest Plain.example_url (Some 24) (Some "secret"))
              "10.0.0.1" "10.0.0.2" "secret" "guess"
              Plain.noon Plain.noon (Plain.noon + 1) (Plain.noon + 1)
              "c2FsdA" 24 []
              eq_refl eq_refl Hvalid eq_refl Hpw Hhash eq_refl Hwne eq_refl
              Hle) as (_ & (Hresp & _ & Hlogs) & Hwrong).
  cbv zeta. split; [exact Hresp|]. split; [exact Hlogs | exact Hwrong].
Defined.

(** X10: two URLs with the same short code.  A first Shorten request,
    its expiry arithmetic going through ([expiry_hours] an integer [h1],
    no overflow), stores a first URL under a code that had no link.  When
    a second URL has that same code, a Shorten request for it whose own
    expiry arithmetic goes through answers, after any calls in between,
    with that code as if it had succeeded and stores nothing: the code
    keeps the first URL, and when the first request had no password
    [GET /{short_code}] up to the first clock reading plus [h1] hours
    redirects to the first URL. *)
Theorem colliding_url_attaches_to_first
    (generate_password_hash : string -> string -> string)
    (check_password_hash : string -> string -> bool) (db : DB)
    (r1 r2 : URLRequest) (host1 host2 visitor : string)
    (now1 now1' now2 now2' now_check now_log : datetime)
    (salt1 salt2 : string) (h1 : Z) (calls : list call) :
  let code := generate_short_url (req_original_url r2) in
  let db1 := run generate_password_hash check_password_hash
               (fst (shorten_url generate_password_hash db r1 host1
                       now1 now1' salt1)) calls in
  let second := shorten_url generate_password_hash db1 r2 host2
                  now2 now2' salt2 in
  generate_short_url (req_original_url r1) = code ->
  select_url db code = None ->
  req_expiry_hours r1 = Some h1 ->
  valid_expiry now1 (Some h1) = true ->
  valid_expiry now2 (req_expiry_hours r2) = true ->
  snd second = JSONResponse (public_url host2 code) /\
  fst second = db1 /\
  (exists row, select_url (fst second) code = Some row /\
               original_url row = req_original_url r1) /\
  (truthy (req_password r1) = false ->
   now_check <= now1 + h1 * us_per_hour ->
   snd (redirect_to_url (fst second) code visitor now_check now_log) =
     RedirectResponse (req_original_url r1)).
Proof.
  cbv zeta. intros Hcode Hfresh Hh Hv1 Hv2. rewrite <- Hcode in *.
  set (row1 := mkURLRow (req_original_url r1)
                 (generate_short_url (req_original_url r1)) now1'
                 (now1 + h1 * us_per_hour)
                 (hashed_password generate_password_hash
                    (req_password r1) salt1)).
  assert (Hsel : select_url
                   (fst (shorten_url generate_password_hash db r1 host1
                           now1 now1' salt1))
                   (generate_short_url (req_original_url r1)) = Some row1).
  { destruct (shorten_url_fresh generate_password_hash db r1 host1
                now1 now1' salt1 h1 Hfresh Hh Hv1) as [-> Hsel].
    exact Hsel. }
  apply (run_keeps_link generate_password_hash check_password_hash calls)
    in Hsel.
  set (db1 := run generate_password_hash check_password_hash
                (fst (shorten_url generate_password_hash db r1 host1
                        now1 now1' salt1)) calls) in *.
  destruct (shorten_url_valid generate_password_hash db1 r2 host2
              now2 now2' salt2 Hv2) as (row2 & Hc2 & ->).
  cbn [fst snd]. rewrite <- Hcode in *.
  assert (Hdup : insert_url db1 row2 = None).
  { apply insert_url_duplicate with (found := row1). now rewrite Hc2. }
  rewrite Hdup.
  split; [reflexivity|]. split; [reflexivity|].
  split; [exists row1; now split|].
  intros Hpw Hle.
  rewrite (redirect_to_url_open _ _ _ _ _ _ Hsel); [reflexivity| |exact Hle].
  unfold is_protected, row1, hashed_password; cbn [password].
  destruct (req_password r1) as [p|]; [|reflexivity]. now rewrite Hpw.
Qed.

Lemma colliding_url_attaches_to_first_witness :
  let first_url := "http://example.com/31923" in
  let second_url := "http://example.com/91421" in
  let db1 := run Plain.generate_password_hash Plain.check_password_hash
               (fst (shorten_url Plain.generate_password_hash init_db
                       (mkURLRequest first_url (Some 24) None)
                       "10.0.0.1" Plain.noon Plain.noon "c2FsdA")) [] in
  let second := shorten_url Plain.generate_password_hash db1
                  (mkURLRequest second_url (Some 24) None)
                  "10.0.0.2" (Plain.noon + 1) (Plain.noon + 1) "c2FsdB" in
  first_url <> second_url /\
  snd second =
    JSONResponse (public_url "10.0.0.2" (generate_short_url second_url)) /\
  snd (redirect_to_url (fst second) (generate_short_url second_url)
         "10.0.0.3" (Plain.noon + 2) (Plain.noon + 2)) =
    RedirectResponse first_url.
Proof.
  cbv zeta. split; [discriminate|].
  assert (Hcode : generate_short_url "http://example.com/31923"
                  = generate_short_url "http://example.com/91421")
    by (vm_compute; reflexivity).
  assert (Hfresh : select_url init_db
                     (generate_short_url "http://example.com/91421") = None)
    by reflexivity.
  assert (Hv1 : valid_expiry Plain.noon (Some 24) = true)
    by (vm_compute; reflexivity).
  assert (Hv2 : valid_expiry (Plain.noon + 1) (Some 24) = true)
    by (vm_compute; reflexivity).
  assert (Hle : Plain.noon + 2 <= Plain.noon + 24 * us_per_hour)
    by (vm_compute; discriminate).
  destruct (colliding_url_attaches_to_first Plain.generate_password_hash
              Plain.check_password_hash init_db
              (mkURLRequest "http://example.com/31923" (Some 24) None)
              (mkURLRequest "http://example.com/91421" (Some 24) None)
              "10.0.0.1" "10.0.0.2" "10.0.0.3"
              Plain.noon Plain.noon (Plain.noon + 1) (Plain.noon + 1)
              (Plain.noon + 2) (Plain.noon + 2) "c2FsdA" "c2FsdB" 24 []
              Hcode Hfresh eq_refl Hv1 Hv2) as (Hresp & _ & _ & Hredirect).
  split; [exact Hresp|]. exact (Hredirect eq_refl Hle).
Defined.

(** ** Counting accesses *)

(** X11: a redirect of an unprotected, unexpired link adds exactly one
    access to the analytics report of its short code, the pair of the
    logging time and the caller at the end of the list, and leaves the
    report data of every other short code as they were. *)
Theorem resolve_counts_one_access (db : DB) (code host : string)
    (now_check now_log : datetime) (row : URLRow) :
  select_url db code = Some row ->
  is_protected row = false ->
  now_check <= expires_at row ->
  let db' := fst (redirect_to_url db code host now_check now_log) in
  (forall entry reader,
     access_count (build_analytics db' entry reader code) =
       access_count (build_analytics db entry reader code) + 1 /\
     access_logs (build_analytics db' entry reader code) =
       access_logs (build_analytics db entry reader code) ++
       [(now_log, host)]) /\
  (forall other entry reader,
     other <> code ->
     build_analytics db' entry reader other =
     build_analytics db entry reader other).
Proof.
  intros Hsel Hopen Hle. cbv zeta.
  rewrite (redirect_to_url_open _ _ _ _ _ _ Hsel Hopen Hle). cbn [fst].
  unfold build_analytics. split.
  - intros entry reader. cbn [access_count access_logs].
    rewrite select_logs_insert_log. cbn [log_short_url].
    rewrite String.eqb_refl, length_app, map_app. cbn [List.length map].
    cbn [accessed_at ip_address]. split; [lia | reflexivity].
  - intros other entry reader Hother.
    rewrite select_logs_insert_log. cbn [log_short_url].
    assert ((code =? other)%string = false) as -> by
      (apply String.eqb_neq; congruence).
    now rewrite app_nil_r.
Qed.

Lemma resolve_counts_one_access_witness :
  let db' := fst (redirect_to_url Plain.db_open Plain.example_code "10.0.0.2"
                    (Plain.noon + 1) (Plain.noon + 2)) in
  access_count (build_analytics db' Plain.row_open "10.0.0.9"
                  Plain.example_code) =
  access_count (build_analytics Plain.db_open Plain.row_open "10.0.0.9"
                  Plain.example_code) + 1.
Proof.
  assert (Hle : Plain.noon + 1 <= expires_at Plain.row_open)
    by (vm_compute; discriminate).
  exact (proj1 (proj1 (resolve_counts_one_access Plain.db_open
                         Plain.example_code "10.0.0.2" (Plain.noon + 1)
                         (Plain.noon + 2) Plain.row_open eq_refl eq_refl Hle)
                  Plain.row_open "10.0.0.9")).
Defined.

(** ** The two ways to send the analytics password *)



(** X13: on a link stored without password no password works: both
    validation forms end in an uncaught [AttributeError] whatever
    non-empty password is typed in (an empty form field never reaches the
    handlers), and write nothing, while the analytics page of the same
    link is served whatever the header. *)
Theorem unprotected_link_rejects_every_password
    (check_password_hash : string -> string -> bool) (db : DB)
    (code pw host : string) (now : datetime) (row : URLRow) :
  select_url db code = Some row ->
  password row = None ->
  pw <> "" ->
  validate_password check_password_hash db code pw now =
    (db, Uncaught AttributeError) /\
  validate_analytics_password check_password_hash db code pw host =
    (db, Uncaught AttributeError) /\
  forall x, get_analytics check_password_hash db code x host =
    (db, HTMLResponse (Analytics (build_analytics db row host code))).
Proof.
  intros Hsel Hpw _. split; [|split].
  - now apply validate_password_no_password with (row := row).
  - unfold validate_analytics_password, check_stored_password.
    now rewrite Hsel, Hpw.
  - intros x. apply get_analytics_unprotected; [assumption|].
    unfold is_protected. now rewrite Hpw.
Qed.

Lemma unprotected_link_rejects_every_password_witness :
  validate_password Plain.check_password_hash Plain.db_open
    Plain.example_code "secret" (Plain.noon + 1) =
    (Plain.db_open, Uncaught AttributeError) /\
  validate_analytics_password Plain.check_password_hash Plain.db_open
    Plain.example_code "secret" "10.0.0.2" =
    (Plain.db_open, Uncaught AttributeError).
Proof.
  assert (Hne : "secret" <> "") by discriminate.
  destruct (unprotected_link_rejects_every_password
              Plain.check_password_hash Plain.db_open Plain.example_code
              "secret" "10.0.0.2" (Plain.noon + 1) Plain.row_open
              eq_refl eq_refl Hne) as (Hdirect & Hform & _).
  split; [exact Hdirect | exact Hform].
Defined.

(** ** Short codes in the store *)

Lemma run_rows_invariant
    (generate_password_hash : string -> string -> string)
    (check_password_hash : string -> string -> bool)
    (P : URLRow -> Prop) (calls : list call) (db : DB) :
  (forall url created expires pwhash,
     P (mkURLRow url (generate_short_url url) created expires pwhash)) ->
  Forall P (URLs db) ->
  Forall P (URLs (run generate_password_hash check_password_hash db calls)).
Proof.
  intros Hnew. revert db.
  induction calls as [|c calls IH]; intros db Hdb; [exact Hdb|].
  rewrite run_cons. apply IH.
  destruct c as [r h n1 n2 s|code h n1 n2|code pw n|code pw h|code x h];
    try (rewrite handle_other_rows; [assumption | intros; discriminate]).
  cbn [handle].
  destruct (shorten_url_rows generate_password_hash db r h n1 n2 s)
    as [_ [-> | (hrs & pwhash & _ & ->)]]; [assumption|].
  apply Forall_app. split; [assumption|]. constructor; [apply Hnew | constructor].
Qed.

Lemma generated_code_well_formed (url : string) :
  well_formed_code (generate_short_url url).
Proof.
  destruct (digest_shape url) as (_ & _ & H8 & Hhex). now split.
Qed.

Lemma unknown_code_404
    (check_password_hash : string -> string -> bool) (db : DB)
    (code pw host : string) (x : option string) (n1 n2 : datetime) :
  select_url db code = None ->
  redirect_to_url db code host n1 n2 = (db, not_found) /\
  validate_password check_password_hash db code pw n1 = (db, not_found) /\
  validate_analytics_password check_password_hash db code pw host =
    (db, not_found) /\
  get_analytics check_password_hash db code x host = (db, not_found).
Proof.
  intros Hnone.
  unfold redirect_to_url, validate_password, validate_analytics_password,
    get_analytics.
  rewrite Hnone. repeat split.
Qed.

(** X14: along every sequence of calls on a new database, every stored
    link sits under the short code the generator gives its own
    [original_url], so every stored code is 8 lowercase hexadecimal
    digits. *)
Theorem stored_codes_are_generated
    (generate_password_hash : string -> string -> string)
    (check_password_hash : string -> string -> bool) (calls : list call) :
  Forall (fun row => short_url row = generate_short_url (original_url row) /\
                     well_formed_code (short_url row))
    (URLs (run generate_password_hash check_password_hash init_db calls)).
Proof.
  apply run_rows_invariant; [|constructor].
  intros url created expires pwhash. cbn [short_url original_url].
  split; [reflexivity | apply generated_code_well_formed].
Qed.

(** X15: a short code that is not 8 lowercase hexadecimal digits names no
    link: after any sequence of calls on a new database, the four
    endpoints that take a short code answer it with 404 and write
    nothing. *)
Theorem malformed_code_is_not_found
    (generate_password_hash : string -> string -> string)
    (check_password_hash : string -> string -> bool) (calls : list call)
    (code pw host : string) (x : option string) (n1 n2 : datetime) :
  ~ well_formed_code code ->
  let db := run generate_password_hash check_password_hash init_db calls in
  redirect_to_url db code host n1 n2 = (db, not_found) /\
  validate_password check_password_hash db code pw n1 = (db, not_found) /\
  validate_analytics_password check_password_hash db code pw host =
    (db, not_found) /\
  get_analytics check_password_hash db code x host = (db, not_found).
Proof.
  intros Hbad. cbv zeta. apply unknown_code_404.
  destruct (select_url _ code) as [row|] eqn:Hsel; [|reflexivity].
  exfalso. apply Hbad.
  rewrite <- (select_url_short_url _ _ _ Hsel).
  pose proof (run_rows_invariant generate_password_hash check_password_hash
                (fun r => well_formed_code (short_url r)) calls init_db
                (fun url _ _ _ => generated_code_well_formed url)
                (Forall_nil _)) as Hall.
  rewrite Forall_forall in Hall. apply (Hall row).
  eapply select_url_In. exact Hsel.
Qed.

Lemma malformed_code_is_not_found_witness :
  let db := run Plain.generate_password_hash Plain.check_password_hash init_db
              [Shorten (URLRequest_validate Plain.example_url None None)
                 "10.0.0.1" Plain.noon Plain.noon "c2FsdA"] in
  redirect_to_url db "analytics" "10.0.0.2" Plain.noon Plain.noon =
    (db, not_found).
Proof.
  refine (proj1 (malformed_code_is_not_found Plain.generate_password_hash
                   Plain.check_password_hash
                   [Shorten (URLRequest_validate Plain.example_url None None)
                      "10.0.0.1" Plain.noon Plain.noon "c2FsdA"]
                   "analytics" "" "10.0.0.2" None Plain.noon Plain.noon _)).
  intros [Hlen _]. discriminate Hlen.
Defined.

(** ** When Shorten succeeds *)

(** X16: with the clock inside the [datetime] range, a Shorten request
    succeeds exactly when [expiry_hours] is an integer and the clock plus
    that many hours is still inside the range (years 1 to 9999).  An
    explicit null ends in [TypeError], an expiry outside the range in
    [OverflowError], and in both cases nothing is stored; negative and
    zero hours inside the range are accepted. *)
Theorem shorten_succeeds_within_datetime_range
    (generate_password_hash : string -> string -> string) (db : DB)
    (request : URLRequest) (host : string) (now_expiry now_created : datetime)
    (salt : string) :
  in_datetime_range now_expiry ->
  let out := shorten_url generate_password_hash db request host
               now_expiry now_created salt in
  let code := generate_short_url (req_original_url request) in
  (req_expiry_hours request = None -> out = (db, Uncaught TypeError)) /\
  (forall h, req_expiry_hours request = Some h ->
     (in_datetime_range (now_expiry + h * us_per_hour) ->
      snd out = JSONResponse (public_url host code)) /\
     (~ in_datetime_range (now_expiry + h * us_per_hour) ->
      out = (db, Uncaught OverflowError))).
Proof.
  unfold in_datetime_range. intros Hnow. cbv zeta. unfold shorten_url. split.
  - now intros ->.
  - intros h ->. unfold timedelta_hours, datetime_add.
    unfold max_ordinal, max_delta_days, us_per_day, us_per_hour in *.
    destruct (Z.abs _ <=? _) eqn:Hdelta.
    + destruct (_ && _) eqn:Hsum; cbn [snd].
      * split; [reflexivity|]. intros Hout. exfalso. apply Hout.
        apply andb_true_iff in Hsum as [H1 H2].
        apply Z.leb_le in H1. apply Z.ltb_lt in H2. lia.
      * split; [|reflexivity]. intros Hin. exfalso.
        apply andb_false_iff in Hsum as [H1 | H2].
        -- apply Z.leb_gt in H1. lia.
        -- apply Z.ltb_ge in H2. lia.
    + split; [|reflexivity]. intros Hin. exfalso.
      apply Z.leb_gt in Hdelta.
      revert Hdelta. apply Z.le_ngt.
      apply Z.abs_le. split.
      * apply Z.div_le_lower_bound; lia.
      * apply Z.div_le_upper_bound; lia.
Qed.

Lemma shorten_succeeds_within_datetime_range_witness :
  snd (shorten_url Plain.generate_password_hash init_db
         (mkURLRequest Plain.example_url (Some (-24)) None)
         "10.0.0.1" Plain.noon Plain.noon "c2FsdA") =
    JSONResponse
      (public_url "10.0.0.1" (generate_short_url Plain.example_url)) /\
  shorten_url Plain.generate_password_hash init_db
    (mkURLRequest Plain.example_url (Some 100000000) None)
    "10.0.0.1" Plain.noon Plain.noon "c2FsdA" =
    (init_db, Uncaught OverflowError).
Proof.
  assert (Hnow : in_datetime_range Plain.noon)
    by (split; vm_compute; [discriminate | reflexivity]).
  split.
  - refine (proj1 (proj2 (shorten_succeeds_within_datetime_range
                            Plain.generate_password_hash init_db
                            (mkURLRequest Plain.example_url (Some (-24)) None)
                            "10.0.0.1" Plain.noon Plain.noon "c2FsdA" Hnow)
                     (-24) eq_refl) _).
    split; vm_compute; [discriminate | reflexivity].
  - refine (proj2 (proj2 (shorten_succeeds_within_datetime_range
                            Plain.generate_password_hash init_db
                            (mkURLRequest Plain.example_url (Some 100000000)
                               None)
                            "10.0.0.1" Plain.noon Plain.noon "c2FsdA" Hnow)
                     100000000 eq_refl) _).
    intros [_ Hlt]. vm_compute in Hlt. discriminate Hlt.
Defined.

(** ** The digest behind the short code *)

Lemma be_bytes_length (n : nat) (x : Z) :
  List.length (SHA256.be_bytes n x) = n.
Proof. induction n as [|n IH]; cbn; [reflexivity | now rewrite IH]. Qed.

(** The padded message is the message followed by at least 9 and at
    most 72 more bytes, and its length is a multiple of the 64-byte block
    size, so the digest reads every byte of the URL and no partial
    block. *)
Lemma pad_fills_blocks (msg : list Z) :
  let padded := SHA256.pad msg in
  Z.of_nat (List.length padded) mod 64 = 0 /\
  firstn (List.length msg) padded = msg /\
  (List.length msg + 9 <= List.length padded <= List.length msg + 72)%nat.
Proof.
  cbv zeta. unfold SHA256.pad.
  assert (Hk : 0 <= (55 - Z.of_nat (List.length msg)) mod 64 < 64)
    by (apply Z.mod_pos_bound; lia).
  rewrite !length_app, repeat_length, be_bytes_length. cbn [List.length].
  split; [|split].
  - remember ((55 - Z.of_nat (List.length msg)) mod 64) as k eqn:Ek.
    replace (Z.of_nat (List.length msg + (1 + (Z.to_nat k + 8))))
      with (Z.of_nat (List.length msg) + 9 + k) by lia.
    pose proof (Z.div_mod (55 - Z.of_nat (List.length msg)) 64) as Hdm.
    rewrite <- Ek in Hdm.
    replace (Z.of_nat (List.length msg) + 9 + k)
      with ((1 - (55 - Z.of_nat (List.length msg)) / 64) * 64) by lia.
    apply Z.mod_mul. lia.
  - rewrite firstn_app, Nat.sub_diag, firstn_all. cbn [firstn].
    apply app_nil_r.
  - lia.
Qed.

Lemma add32_is_word32 (x y : Z) : is_word32 (SHA256.add32 x y).
Proof.
  unfold is_word32, SHA256.add32, SHA256.w32. apply Z.mod_pos_bound. lia.
Qed.

Lemma compress_words (s : SHA256.state) (block : list Z) :
  Forall is_word32 (words (SHA256.compress s block)).
Proof.
  unfold SHA256.compress.
  destruct (fold_left _ _ s) as [[[[[[[a b] c] d] e] f] g] h].
  destruct s as [[[[[[[a0 b0] c0] d0] e0] f0] g0] h0]. cbn [words].
  repeat (constructor; [apply add32_is_word32|]). constructor.
Qed.

Lemma blocks_words (n : nat) (s : SHA256.state) (bs : list Z) :
  Forall is_word32 (words s) ->
  Forall is_word32 (words (SHA256.blocks n s bs)).
Proof.
  revert s bs. induction n as [|n IH]; intros s bs Hs; cbn [SHA256.blocks].
  - exact Hs.
  - apply IH, compress_words.
Qed.

Lemma sha256_words (msg : list Z) :
  Forall is_word32 (words (SHA256.sha256 msg)).
Proof.
  unfold SHA256.sha256. apply blocks_words.
  unfold is_word32. cbn [SHA256.init words].
  repeat (constructor; [vm_compute; split; [discriminate | reflexivity]|]).
  constructor.
Qed.

Lemma hex_value_hexdigit (d : Z) :
  0 <= d < 16 -> hex_value (SHA256.hexdigit d) = d.
Proof.
  intros Hd.
  assert (d = 0 \/ d = 1 \/ d = 2 \/ d = 3 \/ d = 4 \/ d = 5 \/ d = 6 \/
          d = 7 \/ d = 8 \/ d = 9 \/ d = 10 \/ d = 11 \/ d = 12 \/
          d = 13 \/ d = 14 \/ d = 15) as Hcases by lia.
  repeat (destruct Hcases as [-> | Hcases]; [reflexivity|]).
  subst d. reflexivity.
Qed.

Lemma hexdigit_injective (x y : Z) :
  SHA256.hexdigit (x mod 16) = SHA256.hexdigit (y mod 16) ->
  x mod 16 = y mod 16.
Proof.
  intros H. apply (f_equal hex_value) in H.
  rewrite !hex_value_hexdigit in H by (apply Z.mod_pos_bound; lia).
  exact H.
Qed.

Lemma same_nibbles_step (x y : Z) :
  x / 16 = y / 16 -> x mod 16 = y mod 16 -> x = y.
Proof.
  intros Hq Hr.
  rewrite (Z.div_mod x 16), (Z.div_mod y 16) by lia. now rewrite Hq, Hr.
Qed.

Lemma nibble_step (k x y : Z) :
  0 < k ->
  x / (k * 16) = y / (k * 16) ->
  (x / k) mod 16 = (y / k) mod 16 ->
  x / k = y / k.
Proof.
  intros Hk Hq Hr. apply same_nibbles_step; [|exact Hr].
  now rewrite !Z.div_div by lia.
Qed.

Lemma hex8_injective (w w' : Z) :
  is_word32 w -> is_word32 w' ->
  SHA256.hex8 w = SHA256.hex8 w' -> w = w'.
Proof.
  unfold is_word32, SHA256.hex8. intros Hw Hw' H.
  injection H as H7 H6 H5 H4 H3 H2 H1 H0.
  apply hexdigit_injective in H7, H6, H5, H4, H3, H2, H1, H0.
  rewrite !Z.shiftr_div_pow2 in * by lia.
  assert (E8 : w / (2 ^ 28 * 16) = w' / (2 ^ 28 * 16)).
  { change (2 ^ 28 * 16) with (2 ^ 32). now rewrite !Z.div_small. }
  pose proof (nibble_step (2 ^ 28) w w' eq_refl E8 H7) as E7.
  change (2 ^ 28) with (2 ^ 24 * 16) in E7.
  pose proof (nibble_step (2 ^ 24) w w' eq_refl E7 H6) as E6.
  change (2 ^ 24) with (2 ^ 20 * 16) in E6.
  pose proof (nibble_step (2 ^ 20) w w' eq_refl E6 H5) as E5.
  change (2 ^ 20) with (2 ^ 16 * 16) in E5.
  pose proof (nibble_step (2 ^ 16) w w' eq_refl E5 H4) as E4.
  change (2 ^ 16) with (2 ^ 12 * 16) in E4.
  pose proof (nibble_step (2 ^ 12) w w' eq_refl E4 H3) as E3.
  change (2 ^ 12) with (2 ^ 8 * 16) in E3.
  pose proof (nibble_step (2 ^ 8) w w' eq_refl E3 H2) as E2.
  change (2 ^ 8) with (2 ^ 4 * 16) in E2.
  pose proof (nibble_step (2 ^ 4) w w' eq_refl E2 H1) as E1.
  change (2 ^ 4) with 16 in E1.
  now apply same_nibbles_step.
Qed.

(** X17: two URLs get the same short code exactly when the first 32 bits
    of their SHA-256 digests are the same: the 8 hexadecimal digits lose
    nothing of the first digest word, which is a 32-bit value. *)
Theorem same_code_iff_same_first_word (u v : string) :
  is_word32 (first_word (SHA256.sha256 (encode u))) /\
  (generate_short_url u = generate_short_url v <->
   first_word (SHA256.sha256 (encode u)) =
   first_word (SHA256.sha256 (encode v))).
Proof.
  unfold generate_short_url.
  pose proof (sha256_words (encode u)) as Hu.
  pose proof (sha256_words (encode v)) as Hv.
  destruct (SHA256.sha256 (encode u)) as [[[[[[[a b] c] d] e] f] g] h].
  destruct (SHA256.sha256 (encode v)) as [[[[[[[a' b'] c'] d'] e'] f'] g'] h'].
  cbn [words first_word] in *.
  apply Forall_inv in Hu, Hv.
  cbv beta iota zeta delta [SHA256.hexdigest].
  rewrite !prefix_hex8.
  split; [exact Hu|]. split.
  - now apply hex8_injective.
  - now intros ->.
Qed.

(** ** Who gets to the stored URL *)

(** [GET /{short_code}] redirects only for a link that exists, has
    not expired and is not protected, and then to that link's own
    [original_url]; in every other case the response is not a redirect. *)
Lemma redirect_only_when_open (db : DB) (code host url : string)
    (now_check now_log : datetime) :
  snd (redirect_to_url db code host now_check now_log) = RedirectResponse url
  <->
  exists row, select_url db code = Some row /\
              is_protected row = false /\
              now_check <= expires_at row /\
              original_url row = url.
Proof.
  unfold redirect_to_url, is_protected. split.
  - destruct (select_url db code) as [row|]; [|discriminate].
    destruct (expires_at row <? now_check) eqn:Hexp; [discriminate|].
    destruct (truthy (password row)) eqn:Hprot; [discriminate|].
    cbn [snd]. intros [= <-]. exists row.
    apply Z.ltb_ge in Hexp. now repeat split.
  - intros (row & -> & Hprot & Hle & <-).
    apply Z.ltb_ge in Hle. now rewrite Hle, Hprot.
Qed.

(** [POST /{short_code}/validate] answers with the redirecting page
    only for a link that exists and has a stored hash the supplied
    password is accepted against, and then the page leads to that link's
    own [original_url]. *)
Lemma validate_redirects_only_with_password
    (check_password_hash : string -> string -> bool) (db : DB)
    (code pw url : string) (now : datetime) :
  snd (validate_password check_password_hash db code pw now) =
    HTMLResponse (Redirecting url)
  <->
  exists row pwhash, select_url db code = Some row /\
                     password row = Some pwhash /\
                     check_password_hash pwhash pw = true /\
                     original_url row = url.
Proof.
  unfold validate_password, check_stored_password. split.
  - destruct (select_url db code) as [row|]; [|discriminate].
    destruct (password row) as [pwhash|] eqn:Hpw; [|discriminate].
    destruct (check_password_hash pwhash pw) eqn:Hok; [|discriminate].
    cbn [snd]. intros [= <-]. now exists row, pwhash.
  - intros (row & pwhash & -> & -> & -> & <-). reflexivity.
Qed.

(** [GET /analytics/{short_code}] shows a report only for a link
    that exists and is either unprotected or protected with a stored hash
    the non-empty [X-Password] header is accepted against; the report is
    then the one of that link. *)
Lemma analytics_only_when_authorised
    (check_password_hash : string -> string -> bool) (db : DB)
    (code host : string) (x_password : option string)
    (data : analytics_data) :
  snd (get_analytics check_password_hash db code x_password host) =
    HTMLResponse (Analytics data)
  <->
  exists row,
    select_url db code = Some row /\
    data = build_analytics db row host code /\
    (is_protected row = false \/
     exists pwhash supplied,
       password row = Some pwhash /\ x_password = Some supplied /\
       supplied <> "" /\ check_password_hash pwhash supplied = true).
Proof.
  split.
  - unfold get_analytics, is_protected, check_stored_password.
    destruct (select_url db code) as [row|]; [|discriminate].
    destruct (truthy (password row)) eqn:Hprot.
    + destruct x_password as [supplied|]; [|discriminate].
      destruct (truthy (Some supplied)) eqn:Hne; [|discriminate].
      destruct (password row) as [pwhash|] eqn:Hpw; [|discriminate].
      destruct (check_password_hash pwhash supplied) eqn:Hok; [|discriminate].
      cbn [snd]. intros [= <-]. exists row. split; [reflexivity|].
      split; [reflexivity|]. right. exists pwhash, supplied.
      split; [exact Hpw|]. split; [reflexivity|]. split; [|exact Hok].
      cbn [truthy] in Hne. apply negb_true_iff in Hne.
      now apply String.eqb_neq.
    + cbn [snd]. intros [= <-]. exists row. split; [reflexivity|].
      split; [reflexivity|]. left. exact Hprot.
  - intros (row & Hsel & -> & [Hopen | (pwhash & supplied & Hpw & -> & Hne & Hok)]).
    + now rewrite (get_analytics_unprotected _ _ _ _ _ _ Hsel Hopen).
    + now rewrite (get_analytics_correct _ _ _ _ _ _ _ Hsel Hpw Hne Hok).
Qed.

(** X18: no endpoint hands out the URL of a protected link without its
    password.  Whenever the response to a call carries a stored URL (a
    redirect, the redirecting page, an analytics report), the call names
    the short code of an existing link with that URL, and if the link is
    protected the call supplied a password that is accepted against the
    stored hash. *)
Theorem protected_url_needs_password
    (generate_password_hash : string -> string -> string)
    (check_password_hash : string -> string -> bool) (db : DB) (c : call)
    (url : string) :
  disclosed_url
    (snd (handle generate_password_hash check_password_hash db c)) = Some url ->
  exists code row,
    call_code c = Some code /\
    select_url db code = Some row /\
    original_url row = url /\
    (is_protected row = true ->
     exists pwhash pw,
       password row = Some pwhash /\
       supplied_password c = Some pw /\
       check_password_hash pwhash pw = true).
Proof.
  destruct c as [r h n1 n2 s|code h n1 n2|code pw n|code pw h|code x h];
    cbn [handle call_code supplied_password].
  - unfold shorten_url.
    destruct (timedelta_hours _); [discriminate|].
    destruct (datetime_add _ _); discriminate.
  - unfold redirect_to_url, is_protected.
    destruct (select_url db code) as [row|] eqn:Hsel; [|discriminate].
    destruct (_ <? _); [discriminate|].
    destruct (truthy (password row)) eqn:Hprot; [discriminate|].
    cbn [snd disclosed_url]. intros [= <-].
    exists code, row. split; [reflexivity|]. split; [exact Hsel|].
    split; [reflexivity|]. intros Hp. congruence.
  - unfold validate_password, check_stored_password.
    destruct (select_url db code) as [row|] eqn:Hsel; [|discriminate].
    destruct (password row) as [pwhash|] eqn:Hpw; [|discriminate].
    destruct (check_password_hash pwhash pw) eqn:Hok; [|discriminate].
    cbn [snd disclosed_url]. intros [= <-].
    exists code, row. split; [reflexivity|]. split; [exact Hsel|].
    split; [reflexivity|]. intros _. now exists pwhash, pw.
  - unfold validate_analytics_password, check_stored_password.
    destruct (select_url db code) as [row|] eqn:Hsel; [|discriminate].
    destruct (password row) as [pwhash|] eqn:Hpw; [|discriminate].
    destruct (check_password_hash pwhash pw) eqn:Hok; [|discriminate].
    cbn [snd disclosed_url build_analytics ad_original_url]. intros [= <-].
    exists code, row. split; [reflexivity|]. split; [exact Hsel|].
    split; [reflexivity|]. intros _. now exists pwhash, pw.
  - unfold get_analytics, is_protected, check_stored_password.
    destruct (select_url db code) as [row|] eqn:Hsel; [|discriminate].
    destruct (truthy (password row)) eqn:Hprot.
    + destruct x as [supplied|]; [|discriminate].
      destruct (truthy (Some supplied)); [|discriminate].
      destruct (password row) as [pwhash|] eqn:Hpw; [|discriminate].
      destruct (check_password_hash pwhash supplied) eqn:Hok; [|discriminate].
      cbn [snd disclosed_url build_analytics ad_original_url]. intros [= <-].
      exists code, row. split; [reflexivity|]. split; [exact Hsel|].
      split; [reflexivity|]. intros _. now exists pwhash, supplied.
    + cbn [snd disclosed_url build_analytics ad_original_url]. intros [= <-].
      exists code, row. split; [reflexivity|]. split; [exact Hsel|].
    split; [reflexivity|]. intros Hp. congruence.
Qed.

Lemma protected_url_needs_password_witness :
  exists code row,
    call_code (ValidateAndResolve Plain.example_code "secret" (Plain.noon + 1))
      = Some code /\
    select_url Plain.db_secret code = Some row /\
    original_url row = Plain.example_url /\
    (is_protected row = true ->
     exists pwhash pw,
       password row = Some pwhash /\
       supplied_password
         (ValidateAndResolve Plain.example_code "secret" (Plain.noon + 1))
         = Some pw /\
       Plain.check_password_hash pwhash pw = true).
Proof.
  apply (protected_url_needs_password Plain.generate_password_hash
           Plain.check_password_hash Plain.db_secret
           (ValidateAndResolve Plain.example_code "secret" (Plain.noon + 1))
           Plain.example_url).
  reflexivity.
Defined.

(** ** Accesses and redirects *)

Lemma handle_logs_iff_redirect
    (generate_password_hash : string -> string -> string)
    (check_password_hash : string -> string -> bool) (db : DB) (c : call) :
  let out := handle generate_password_hash check_password_hash db c in
  List.length (AccessLogs (fst out)) =
  (List.length (AccessLogs db) + if is_redirect (snd out) then 1 else 0)%nat.
Proof.
  cbv zeta.
  destruct c as [r h n1 n2 s|code h n1 n2|code pw n|code pw h|code x h];
    cbn [handle].
  - unfold shorten_url.
    destruct (timedelta_hours _); [cbn; lia|].
    destruct (datetime_add _ _); [cbn; lia|].
    match goal with
    | |- context [insert_url db ?row] =>
        destruct (insert_url db row) as [db'|] eqn:Hi
    end; cbn [fst snd is_redirect]; [|lia].
    apply insert_url_fresh in Hi as [_ ->]. cbn [AccessLogs]. lia.
  - unfold redirect_to_url.
    destruct (select_url db code); [|cbn; lia].
    destruct (_ <? _); [cbn; lia|].
    destruct (truthy _); cbn [fst snd is_redirect insert_log AccessLogs];
      [lia|]. rewrite length_app. cbn. lia.
  - unfold validate_password.
    destruct (select_url db code); [|cbn; lia].
    destruct (check_stored_password _ _ _) as [e|[|]];
      cbn [fst snd is_redirect insert_log AccessLogs]; try lia.
    rewrite length_app. cbn. lia.
  - unfold validate_analytics_password.
    destruct (select_url db code); [|cbn; lia].
    destruct (check_stored_password _ _ _) as [e|[|]]; cbn; lia.
  - rewrite get_analytics_store.
    unfold get_analytics.
    destruct (select_url db code) as [row|]; [|cbn; lia].
    destruct (truthy (password row)); [|cbn; lia].
    destruct x as [p|]; [|cbn; lia].
    destruct (truthy (Some p)); [|cbn; lia].
    destruct (check_stored_password _ _ _) as [e|[|]]; cbn; lia.
Qed.

(** X19: the access log holds one entry per redirect: along any sequence
    of calls, the number of entries added to the log is the number of
    responses that were a redirect or a redirecting page. *)
Theorem one_log_entry_per_redirect
    (generate_password_hash : string -> string -> string)
    (check_password_hash : string -> string -> bool) (db : DB)
    (calls : list call) :
  List.length
    (AccessLogs (run generate_password_hash check_password_hash db calls)) =
  (List.length (AccessLogs db) +
   List.length
     (filter is_redirect
        (responses generate_password_hash check_password_hash db calls)))%nat.
Proof.
  revert db. induction calls as [|c calls IH]; intros db.
  - cbn. lia.
  - rewrite run_cons, IH. cbn [responses filter].
    pose proof (handle_logs_iff_redirect generate_password_hash
                  check_password_hash db c) as Hstep.
    cbv zeta in Hstep. rewrite Hstep.
    destruct (is_redirect _); cbn [List.length]; lia.
Qed.
